(** * go-vast-client: the generic request engine, embedded and verified

    A shallow embedding of the core of [pkg/vast_client]: the parameter map,
    the response shapes, URL construction, the generic CRUD dispatcher, the
    cluster-version gate, the task poller and the token authenticator.

    Conventions of the embedding
    - Go strings are byte strings: [string].
    - [int], [int64] and [uint64] values are carried as [Z]; [float64] is
      [spec_float] (sign, mantissa, exponent).
    - A Go function returning [(T, error)] that may also panic returns an
      [outcome T]; code with effects (network, clock, package variables)
      is a state transformer over [World].
    - Go maps distinguish the nil map (reads succeed, writes panic) from an
      allocated one: [GoMap]. *)

From Stdlib Require Import ZArith String Ascii List Bool Lia.
From Stdlib Require Import Floats.SpecFloat.
From Stdlib Require Import DecimalString.
From stdpp Require Import base option gmap strings list fin_maps sorting.

Set Warnings "-register-all".
Open Scope string_scope.
Open Scope Z_scope.

(** ** Bytes and the [strings] package *)

Module GoStrings.

Definition byteOf (c : ascii) : Z := Z.of_N (N_of_ascii c).

Definition isUpper (c : ascii) : bool := (65 <=? byteOf c) && (byteOf c <=? 90).
Definition isLower (c : ascii) : bool := (97 <=? byteOf c) && (byteOf c <=? 122).
Definition isDigit (c : ascii) : bool := (48 <=? byteOf c) && (byteOf c <=? 57).

Definition shift (c : ascii) (d : Z) : ascii :=
  ascii_of_N (Z.to_N (byteOf c + d)).

(** [strings.ToUpper] / [strings.ToLower] on the ASCII letters; every other
    byte is kept. *)
Fixpoint ToUpper (s : string) : string :=
  match s with
  | EmptyString => EmptyString
  | String c r => String (if isLower c then shift c (-32) else c) (ToUpper r)
  end.

Fixpoint ToLower (s : string) : string :=
  match s with
  | EmptyString => EmptyString
  | String c r => String (if isUpper c then shift c 32 else c) (ToLower r)
  end.

Fixpoint TrimLeft (s : string) (cut : ascii) : string :=
  match s with
  | String c r => if Ascii.eqb c cut then TrimLeft r cut else s
  | EmptyString => EmptyString
  end.

Fixpoint TrimRight (s : string) (cut : ascii) : string :=
  match s with
  | EmptyString => EmptyString
  | String c r =>
      match TrimRight r cut with
      | EmptyString => if Ascii.eqb c cut then EmptyString else String c EmptyString
      | r' => String c r'
      end
  end.

(** [strings.Trim(s, cutset)] for a one-byte cutset. *)
Definition Trim (s : string) (cut : ascii) : string :=
  TrimRight (TrimLeft s cut) cut.

(** [strings.Split(s, sep)] for a one-byte separator: always at least one
    field, [Count(s, sep) + 1] of them. *)
Fixpoint Split (s : string) (sep : ascii) : list string :=
  match s with
  | EmptyString => [EmptyString]
  | String c r =>
      if Ascii.eqb c sep then EmptyString :: Split r sep
      else match Split r sep with
           | f :: fs => String c f :: fs
           | [] => [String c EmptyString]
           end
  end.

Fixpoint Join (elems : list string) (sep : string) : string :=
  match elems with
  | [] => ""
  | [e] => e
  | e :: rest => e ++ sep ++ Join rest sep
  end.

Definition HasPrefix (s p : string) : bool := String.prefix p s.

Definition lastByte (s : string) : option ascii :=
  last (list_ascii_of_string s).

Definition HasSuffixByte (s : string) (c : ascii) : bool :=
  match lastByte s with
  | Some d => Ascii.eqb c d
  | None => false
  end.

Fixpoint ContainsByte (s : string) (c : ascii) : bool :=
  match s with
  | EmptyString => false
  | String d r => Ascii.eqb c d || ContainsByte r c
  end.

(** [strconv.FormatInt(n, 10)], the [%d] verb. *)
Definition Itoa (n : Z) : string := NilZero.string_of_int (Z.to_int n).

End GoStrings.

(** ** The [path] and [net/url] packages, as far as [buildUrl] uses them *)

Module GoPath.

(** One path element against the elements kept so far (innermost first). *)
Definition cleanStep (rooted : bool) (kept : list string) (elem : string)
    : list string :=
  if String.eqb elem "" || String.eqb elem "." then kept
  else if String.eqb elem ".." then
    match kept with
    | top :: below => if String.eqb top ".." then elem :: kept else below
    | [] => if rooted then [] else [elem]
    end
  else elem :: kept.

(** [path.Clean]: repeated slashes collapse, [.] elements go, an inner
    [..] removes the element before it, a [..] at the root goes, and the
    empty result is written [.]. *)
Definition Clean (p : string) : string :=
  let rooted := GoStrings.HasPrefix p "/" in
  let kept := fold_left (cleanStep rooted) (GoStrings.Split p "/") [] in
  let body := GoStrings.Join (rev kept) "/" in
  let out := if rooted then "/" ++ body else body in
  if String.eqb out "" then "." else out.

(** The buffer [path.Join] builds before cleaning it. *)
Fixpoint joinBuf (buf : string) (elem : list string) : string :=
  match elem with
  | [] => buf
  | e :: rest =>
      if negb (String.eqb buf "") then joinBuf (buf ++ "/" ++ e) rest
      else if negb (String.eqb e "") then joinBuf e rest
      else joinBuf buf rest
  end.

Definition Join (elem : list string) : string :=
  if forallb (fun e => String.eqb e "") elem then ""
  else Clean (joinBuf "" elem).

End GoPath.

Module GoURL.
Import GoStrings.

Inductive encoding := encodePath | encodeHost | encodeQueryComponent.

Definition isAlnum (c : ascii) : bool := isUpper c || isLower c || isDigit c.

Definition oneOf (set : string) (c : ascii) : bool := ContainsByte set c.

Definition shouldEscape (c : ascii) (mode : encoding) : bool :=
  if isAlnum c then false
  else if (match mode with encodeHost => true | _ => false end)
          && (oneOf "!$&'()*+,;=:[]<>" c || (byteOf c =? 34)) then false
  else if oneOf "-_.~" c then false
  else if oneOf "$&+,/:;=?@" c then
    match mode with
    | encodePath => Ascii.eqb c "?"
    | encodeQueryComponent => true
    | encodeHost => true
    end
  else true.

Definition upperhex (n : Z) : ascii :=
  match String.get (Z.to_nat n) "0123456789ABCDEF" with
  | Some c => c
  | None => "0"%char
  end.

Fixpoint escape (s : string) (mode : encoding) : string :=
  match s with
  | EmptyString => EmptyString
  | String c r =>
      if shouldEscape c mode then
        match mode, Ascii.eqb c " " with
        | encodeQueryComponent, true => String "+" (escape r mode)
        | _, _ =>
            String "%" (String (upperhex (byteOf c / 16))
              (String (upperhex (byteOf c mod 16)) (escape r mode)))
        end
      else String c (escape r mode)
  end.

Definition unhex (c : ascii) : option Z :=
  if isDigit c then Some (byteOf c - 48)
  else if (97 <=? byteOf c) && (byteOf c <=? 102) then Some (byteOf c - 97 + 10)
  else if (65 <=? byteOf c) && (byteOf c <=? 70) then Some (byteOf c - 65 + 10)
  else None.

(** [unescape(s, encodePath)]: a percent sign must be followed by two
    hexadecimal digits; [None] is the [EscapeError]. *)
Fixpoint unescape (s : string) : option string :=
  match s with
  | EmptyString => Some EmptyString
  | String c r =>
      if Ascii.eqb c "%" then
        match r with
        | String h (String l r') =>
            match unhex h, unhex l with
            | Some a, Some b =>
                option_map (String (ascii_of_N (Z.to_N (a * 16 + b)))) (unescape r')
            | _, _ => None
            end
        | _ => None
        end
      else option_map (String c) (unescape r)
  end.

Fixpoint validEncoded (s : string) : bool :=
  match s with
  | EmptyString => true
  | String c r =>
      (oneOf "!$&'()*+,;=:@[]%" c || negb (shouldEscape c encodePath))
      && validEncoded r
  end.

(** The two path fields of a [url.URL]. *)
Record URLPath := { Path : string; RawPath : string }.

(** [URL.setPath]; on an escape error the receiver is left as it was. *)
Definition setPath (u : URLPath) (p : string) : URLPath :=
  match unescape p with
  | None => u
  | Some path =>
      {| Path := path;
         RawPath := if String.eqb p (escape path encodePath) then "" else p |}
  end.

Definition EscapedPath (u : URLPath) : string :=
  let viaRaw :=
    if negb (String.eqb (RawPath u) "") && validEncoded (RawPath u) then
      match unescape (RawPath u) with
      | Some p => if String.eqb p (Path u) then Some (RawPath u) else None
      | None => None
      end
    else None in
  match viaRaw with
  | Some raw => raw
  | None => if String.eqb (Path u) "*" then "*" else escape (Path u) encodePath
  end.

Definition firstSegment (p : string) : string :=
  match Split p "/" with
  | seg :: _ => seg
  | [] => ""
  end.

(** [String()] of a URL that has only a path. *)
Definition relativeString (u : URLPath) : string :=
  let path := EscapedPath u in
  if ContainsByte (firstSegment path) ":" then "./" ++ path else path.

(** [url.JoinPath(base, elem...)] for a base that parses to a plain
    relative path, as ["api"] does. *)
Definition JoinPath (base : string) (elem : list string) : string :=
  let u := {| Path := base; RawPath := "" |} in
  let elem := ("/" ++ EscapedPath u) :: elem in
  let p := match GoPath.Join elem with
           | String _ rest => rest
           | EmptyString => EmptyString
           end in
  let p := if HasSuffixByte (List.last elem "") "/" && negb (HasSuffixByte p "/")
           then p ++ "/" else p in
  relativeString (setPath u p).

(** [String()] of [url.URL{Scheme, Host, Path, RawQuery}] with a scheme
    and a host that are not empty. *)
Definition URLString (scheme host path rawQuery : string) : string :=
  let escaped := EscapedPath {| Path := path; RawPath := "" |} in
  scheme ++ "://" ++ escape host encodeHost
  ++ (if negb (String.eqb escaped "") && negb (HasPrefix escaped "/") then "/" else "")
  ++ escaped
  ++ (if negb (String.eqb rawQuery "") then "?" ++ rawQuery else "").

(** [url.Values.Encode] of a one-value-per-key [url.Values]: keys in
    byte order, [QueryEscape]d. *)
Definition keyLe (a b : string * string) : Prop := String.leb a.1 b.1 = true.

#[global] Instance keyLe_dec : RelDecision keyLe :=
  fun a b => decide (String.leb a.1 b.1 = true).

Definition Encode (values : gmap string string) : string :=
  Join (map (fun kv => escape kv.1 encodeQueryComponent ++ "="
                       ++ escape kv.2 encodeQueryComponent)
            (merge_sort keyLe (map_to_list values))) "&".

End GoURL.



(** ** Dynamic values *)

(** A Go map: [nilMap] is the zero value of a map type. *)
Inductive GoMap (V : Type) : Type :=
| nilMap
| mkMap (m : gmap string V).
Arguments nilMap {V}.
Arguments mkMap {V} m.

(** What an [any] can hold in this package: JSON decoding produces [VNil],
    [VBool], [VFloat64], [VString], [VSlice] and [VMap]; callers also pass
    [VInt] and [VInt64]. [VOther ty] is a value of any other dynamic type,
    [ty] being what [%T] prints. *)
Inductive Value : Type :=
| VNil
| VBool (b : bool)
| VInt (n : Z)
| VInt64 (n : Z)
| VFloat64 (f : spec_float)
| VString (s : string)
| VSlice (l : list Value)
| VMap (m : GoMap Value)
| VOther (ty : string).

(** The entries of a map; reading a nil map is reading an empty one. *)
Definition entries {V} (m : GoMap V) : gmap string V :=
  match m with
  | nilMap => ∅
  | mkMap g => g
  end.

(** [v, ok := m[k]] *)
Definition mapGet {V} (m : GoMap V) (k : string) : option V := entries m !! k.

Definition isNil {V} (m : GoMap V) : bool :=
  match m with nilMap => true | mkMap _ => false end.

(** ** Errors and outcomes *)

(** An error value: [*NotFoundError], an error made by [fmt.Errorf] or
    [errors.New] (the format and its operands, kept unformatted), or an
    error made outside the package. *)
Inductive error : Type :=
| NotFoundError (Resource Query : string)
| Errorf (format : string) (args : list fmtArg)   (* no %w among the verbs *)
| ErrorfW (format : string) (wrapped : error)     (* one operand, under %w *)
| ForeignError (msg : string)
with fmtArg : Type :=
| ArgS (s : string)          (* a string or a Stringer, under %s, %q or %v *)
| ArgD (n : Z)               (* an integer *)
| ArgV (v : Value)           (* an arbitrary value under %v *)
| ArgT (v : Value)           (* the dynamic type of a value, %T *)
| ArgE (e : error).          (* an error under %v *)

(** [isNotFoundErr]: [errors.As] walks the chain of wrapped errors. *)
Fixpoint isNotFoundErr (err : error) : bool :=
  match err with
  | NotFoundError _ _ => true
  | ErrorfW _ inner => isNotFoundErr inner
  | _ => false
  end.

Inductive outcome (A : Type) : Type :=
| Ok (a : A)
| Err (e : error)
| Panic (msg : string).
Arguments Ok {A} a.
Arguments Err {A} e.
Arguments Panic {A} msg.

Definition panic_nil_map : string := "assignment to entry in nil map".
Definition panic_nil_deref : string :=
  "runtime error: invalid memory address or nil pointer dereference".
Definition panic_index : string := "runtime error: index out of range".
Definition panic_slice : string := "runtime error: slice bounds out of range".
Definition panic_conversion : string := "interface conversion".

(** [m[k] = v] *)
Definition mapSet {V} (m : GoMap V) (k : string) (v : V) : outcome (GoMap V) :=
  match m with
  | nilMap => Panic panic_nil_map
  | mkMap g => Ok (mkMap (<[k := v]> g))
  end.


(** ** The runtime and the libraries the package calls

    Functions of [fmt], [encoding/json] and [runtime] whose results the
    package only passes on; they are parameters of the development. *)
Class GoRuntime : Type := {
  (** [fmt.Sprint(v)], which is also [%v] *)
  fmtSprint : Value -> string;
  (** [json.Marshal] of a [Params] *)
  jsonMarshal : GoMap Value -> error + string;
  (** [json.Marshal] of a [map[string]string], which cannot fail *)
  jsonMarshalStrings : gmap string string -> string;
  (** [json.Unmarshal] of a body into a [Record], a [RecordSet], a [jwtToken]
      (its [access] and [refresh] fields) *)
  jsonUnmarshalRecord : string -> error + GoMap Value;
  jsonUnmarshalRecordSet : string -> error + list (GoMap Value);
  jsonUnmarshalToken : string -> error + (string * string);
  (** [json.Indent] with two spaces; [None] when the input is not JSON *)
  jsonIndent : string -> option string;
  (** what [int64(f)] yields for a float that no [int64] represents *)
  int64_other : Z;
  (** the error of [http.NewRequestWithContext] for a method and a URL *)
  httpNewRequest : string -> string -> option error;
  GOOS : string;
  GOARCH : string
}.

(** hashicorp/go-version, which the package uses for cluster versions. *)
Class GoVersion : Type := {
  SemVer : Type;                          (* version.Version *)
  NewVersion : string -> error + SemVer;
  Core : SemVer -> SemVer;
  Compare : SemVer -> SemVer -> Z;        (* -1, 0 or 1 *)
  VersionString : SemVer -> string
}.

(** ** [Params] *)

Abbreviation Params := (GoMap Value).
Abbreviation Record := (GoMap Value).
Abbreviation EmptyRecord := (GoMap Value).
Abbreviation RecordSet := (list (GoMap Value)).

Module ParamsM.

(** One iteration of the loop of [Update]: [pr] is the receiver so far. *)
Definition step (override : bool) (key : string) (value : Value)
    (pr : outcome Params) : outcome Params :=
  match pr with
  | Ok p =>
      match mapGet p key with
      | Some _ => if override then Ok p else mapSet p key value
      | None => mapSet p key value
      end
  | other => other
  end.

(** Go does not fix the order in which [range] visits a map: a run of the
    loop visits the entries of [other] in some arrangement [order]. *)
Definition iteration (other : Params) (order : list (string * Value)) : Prop :=
  order ≡ₚ map_to_list (entries other).

(** [func (pr *Params) Update(other Params, override bool)] along one
    iteration order: the receiver after the call, or the panic of a write
    into a nil receiver. *)
Definition UpdateIn (order : list (string * Value)) (pr : Params)
    (override : bool) : outcome Params :=
  fold_left (fun acc kv => step override kv.1 kv.2 acc) order (Ok pr).

(** [Update] along the order in which [map_to_list] lists the entries. *)
Definition Update (pr other : Params) (override : bool) : outcome Params :=
  UpdateIn (map_to_list (entries other)) pr override.

End ParamsM.

(** ** [utils.go] *)

Definition int64_min : Z := - 2 ^ 63.
Definition int64_max : Z := 2 ^ 63 - 1.

(** The real number a finite [float64] denotes is [signed m * 2 ^ e]. *)
Definition signed (neg : bool) (m : positive) : Z :=
  if neg then Z.neg m else Z.pos m.

(** [int64(v)] for a [float64]: the fraction is discarded (truncation toward
    zero). When the truncated value does not fit an [int64], or [v] is an
    infinity or a NaN, Go leaves the result to the implementation: [other]
    is that result. *)
Definition int64_of_float64 (other : Z) (v : spec_float) : Z :=
  match v with
  | S754_zero _ => 0
  | S754_finite neg m e =>
      let t := if 0 <=? e then signed neg m * 2 ^ e
               else Z.quot (signed neg m) (2 ^ (- e)) in
      if (int64_min <=? t) && (t <=? int64_max) then t else other
  | _ => other
  end.

(** A finite float with a non-zero fractional part. *)
Definition hasFraction (v : spec_float) : bool :=
  match v with
  | S754_finite neg m e =>
      (e <? 0) && negb (Z.rem (signed neg m) (2 ^ (- e)) =? 0)
  | _ => false
  end.

(** [sanitizeVersion]: [segments[:3]] panics when the slice made by
    [strings.Split] (whose capacity is its length) has fewer than three
    elements. *)
Definition sanitizeVersion (version : string) : outcome (string * bool) :=
  let segments := GoStrings.Split version "." in
  let truncated := (3 <? Z.of_nat (length segments)) in
  if (Z.of_nat (length segments) <? 3) then Panic panic_slice
  else Ok (GoStrings.Join (take 3 segments) ".", truncated).

Definition toInt `{GoRuntime} (val : Value) : outcome Z :=
  match val with
  | VInt64 v => Ok v
  | VFloat64 v => Ok (int64_of_float64 int64_other v)
  | VInt v => Ok v
  | v => Err (Errorf "unexpected type for id field: %T" [ArgT v])
  end.

Definition convertMapToQuery `{GoRuntime} (params : Params) : string :=
  GoURL.Encode (fmtSprint <$> entries params).

(** The methods [ToQuery] and [ToBody] of [Params] *)
Definition ToQuery `{GoRuntime} (pr : Params) : string := convertMapToQuery pr.
Definition ToBody `{GoRuntime} (pr : Params) : error + string := jsonMarshal pr.

(** [m[k]] read as a value: the zero value [nil] when the key is absent. *)
Definition index (m : GoMap Value) (k : string) : Value :=
  default VNil (mapGet m k).

(** ** The world a call runs in *)

Record Request : Type := {
  Method : string;
  URL : string;
  Header : list (string * string);
  Payload : string
}.

Record Response : Type := {
  StatusCode : Z;
  Body : string
}.

(** What [http.Client.Do] comes back with. *)
Inductive RoundTrip : Type :=
| Refused (err : error)
| Answered (resp : Response).

(** The remote appliance and the network in front of it: the reply to a
    request, and the time it takes in nanoseconds, given the requests that
    were sent before. *)
Definition Remote : Type := list Request -> Request -> Z * RoundTrip.

Record jwtToken : Type := {
  Access : string;
  Refresh : string;
  CreatedAt : Z
}.

Record JWTAuthenticator : Type := {
  Username : string;
  Password : string;
  Token : option jwtToken;
  initialized : bool
}.

Record ApiRTokenAuthenticator : Type := { ApiRToken : string }.

Section WorldModel.
Context `{RT : GoRuntime} `{VL : GoVersion}.

Record World : Type := {
  now : Z;                        (* time.Now(), in nanoseconds *)
  wire : list Request;            (* requests sent so far, oldest first *)
  remote : Remote;
  sysVersion : option SemVer;     (* var sysVersion *version.Version *)
  jwt : JWTAuthenticator;         (* the session's *JWTAuthenticator *)
  apiToken : ApiRTokenAuthenticator;
  stdout : list error             (* what fmt.Println was given *)
}.

(** A computation of the package: it ends with a value, an error or a
    panic, in a new world. *)
Definition M (A : Type) : Type := World -> outcome A * World.

Definition ret {A} (a : A) : M A := fun w => (Ok a, w).

Definition bind {A B} (m : M A) (f : A -> M B) : M B :=
  fun w =>
    match m w with
    | (Ok a, w') => f a w'
    | (Err e, w') => (Err e, w')
    | (Panic msg, w') => (Panic msg, w')
    end.

Definition fail {A} (e : error) : M A := fun w => (Err e, w).
Definition panic {A} (msg : string) : M A := fun w => (Panic msg, w).

Definition liftO {A} (o : outcome A) : M A := fun w => (o, w).

Definition liftE {A} (r : error + A) : M A :=
  fun w => match r with inl e => (Err e, w) | inr a => (Ok a, w) end.

(** [v, _ := f()]: the error is dropped, a panic is not. *)
Definition ignoreErr {A} (m : M A) : M (option A) :=
  fun w =>
    match m w with
    | (Ok a, w') => (Ok (Some a), w')
    | (Err _, w') => (Ok None, w')
    | (Panic msg, w') => (Panic msg, w')
    end.

Definition set_now (t : Z) (w : World) : World :=
  {| now := t; wire := wire w; remote := remote w; sysVersion := sysVersion w;
     jwt := jwt w; apiToken := apiToken w; stdout := stdout w |}.

Definition set_wire (l : list Request) (w : World) : World :=
  {| now := now w; wire := l; remote := remote w; sysVersion := sysVersion w;
     jwt := jwt w; apiToken := apiToken w; stdout := stdout w |}.

Definition set_sysVersion (v : option SemVer) (w : World) : World :=
  {| now := now w; wire := wire w; remote := remote w; sysVersion := v;
     jwt := jwt w; apiToken := apiToken w; stdout := stdout w |}.

Definition set_jwt (a : JWTAuthenticator) (w : World) : World :=
  {| now := now w; wire := wire w; remote := remote w; sysVersion := sysVersion w;
     jwt := a; apiToken := apiToken w; stdout := stdout w |}.

Definition set_apiToken (a : ApiRTokenAuthenticator) (w : World) : World :=
  {| now := now w; wire := wire w; remote := remote w; sysVersion := sysVersion w;
     jwt := jwt w; apiToken := a; stdout := stdout w |}.

Definition set_stdout (l : list error) (w : World) : World :=
  {| now := now w; wire := wire w; remote := remote w; sysVersion := sysVersion w;
     jwt := jwt w; apiToken := apiToken w; stdout := l |}.

Definition modify (f : World -> World) : M unit := fun w => (Ok tt, f w).

(** [time.Now()] *)
Definition timeNow : M Z := fun w => (Ok (now w), w).

(** [time.Sleep(d)] *)
Definition timeSleep (d : Z) : M unit :=
  fun w => (Ok tt, set_now (now w + Z.max 0 d) w).

(** [fmt.Println(err)] *)
Definition Println (e : error) : M unit :=
  fun w => (Ok tt, set_stdout (stdout w ++ [e]) w).

(** One exchange over the network: the request goes on the wire, the
    remote side answers, time passes. *)
Definition roundTrip (req : Request) : World -> RoundTrip * World :=
  fun w =>
    let '(took, reply) := remote w (wire w) req in
    (reply, set_now (now w + took) (set_wire (wire w ++ [req]) w)).

End WorldModel.

#[global] Instance M_ret `{GoRuntime} `{GoVersion} : MRet M :=
  fun A a => ret a.
#[global] Instance M_bind `{GoRuntime} `{GoVersion} : MBind M :=
  fun A B f m => bind m f.

(** ** Response shapes *)

(** The type parameter of [request]: one of the three members of
    [RecordUnion]. *)
Inductive RecordUnion : Type := TRecord | TEmptyRecord | TRecordSet.

Definition carrier (T : RecordUnion) : Type :=
  match T with
  | TRecord => Record
  | TEmptyRecord => EmptyRecord
  | TRecordSet => RecordSet
  end.

(** A value of interface type [Renderable]: one of the three shapes, a
    value of some other type that has a [Render] method, or the nil
    interface. *)
Inductive Renderable : Type :=
| RRecord (r : Record)
| REmptyRecord (r : EmptyRecord)
| RRecordSet (rs : RecordSet)
| ROther (typeName : string)
| RNil.

(** [Renderable(result)] *)
Definition toRenderable (T : RecordUnion) : carrier T -> Renderable :=
  match T with
  | TRecord => RRecord
  | TEmptyRecord => REmptyRecord
  | TRecordSet => RRecordSet
  end.

(** The shape a [Renderable] holds, if it holds one of the three. *)
Definition shapeOf (v : Renderable) : option RecordUnion :=
  match v with
  | RRecord _ => Some TRecord
  | REmptyRecord _ => Some TEmptyRecord
  | RRecordSet _ => Some TRecordSet
  | ROther _ | RNil => None
  end.

(** [v.(T)], the unchecked type assertion. *)
Definition assertT (T : RecordUnion) (v : Renderable) : outcome (carrier T) :=
  match T, v with
  | TRecord, RRecord r => Ok (r : carrier TRecord)
  | TEmptyRecord, REmptyRecord r => Ok (r : carrier TEmptyRecord)
  | TRecordSet, RRecordSet rs => Ok (rs : carrier TRecordSet)
  | _, _ => Panic panic_conversion
  end.

Definition resourceTypeKey : string := "@resourceType".
Definition ApplicationJson : string := "application/json".
Definition dummyClusterVersion : string := "0.0.0".

(** ** Configuration and the session interface *)

Module Config.
Section Decl.
Context `{RT : GoRuntime} `{VL : GoVersion}.

(** Modelled from the spec: the declaration of [VMSConfig] is not among
    the sources at hand; these are the fields of the configuration
    surface (spec section 6, docs/index.md), as [Validate] leaves
    them. The two hooks are optional. *)
Record VMSConfig : Type := {
  Host : string;
  Port : Z;
  Username : string;
  Password : string;
  ApiToken : string;
  SslVerify : bool;
  Timeout : Z;
  MaxConnections : Z;
  UserAgent : string;
  ApiVersion : string;
  BeforeRequestFn : option (string -> string -> option string -> M unit);
  AfterRequestFn : option (Renderable -> M Renderable)
}.
End Decl.
End Config.

Module RESTSession.
Section Decl.
Context `{RT : GoRuntime} `{VL : GoVersion}.

(** A verb of the session: URL and body reader ([None] is the nil
    reader) to a validated response. Where the Go method returns a
    response next to its error (a status outside 2xx), only the error
    is kept: [request] drops that response. *)
Definition VMSSessionMethod : Type := string -> option string -> M Response.

(** The interface [RESTSession]. *)
Record t : Type := {
  Get : VMSSessionMethod;
  Post : VMSSessionMethod;
  Put : VMSSessionMethod;
  Patch : VMSSessionMethod;
  Delete : VMSSessionMethod;
  GetConfig : Config.VMSConfig
}.
End Decl.
End RESTSession.

Section Engine.
Context `{RT : GoRuntime} `{VL : GoVersion}.
Import GoStrings.

(** *** [utils.go]: response validation *)

Definition getResponseBodyAsStr (r : option Response) : string :=
  match r with
  | None => ""
  | Some r =>
      match jsonIndent (Body r) with
      | Some pretty => pretty
      | None => Body r
      end
  end.

Definition validateResponse (response : option Response) : error + Response :=
  match response with
  | None =>
      inl (Errorf "server unreachable: verify the host is correct and the network is accessible" [])
  | Some r =>
      if (200 <=? StatusCode r) && (StatusCode r <=? 299) then inr r
      else inl (Errorf "invalid status code %d, err: %s"
                  [ArgD (StatusCode r); ArgS (getResponseBodyAsStr response)])
  end.

(** *** [rest.go]: [buildUrl] *)

Definition buildUrl (s : RESTSession.t) (path query apiVer : string)
    : error + string :=
  let config := RESTSession.GetConfig s in
  let apiVer := if negb (String.eqb apiVer "") then Config.ApiVersion config
                else apiVer in
  let path := GoURL.JoinPath "api" [apiVer; Trim path "/"] in
  inr (GoURL.URLString "https"
         (Config.Host config ++ ":" ++ Itoa (Config.Port config)) path query).

(** *** [auth.go] *)

(** [TokenRefreshTime]: ten minutes, in nanoseconds. *)
Definition TokenRefreshTime : Z := 60 * 1000000000 * 10.

(** [t.Sub(u)]: a [Duration], which saturates at the bounds of [int64]. *)
Definition timeSub (t u : Z) : Z :=
  Z.max int64_min (Z.min int64_max (t - u)).

(** [client.Post(url, contentType, body)]: the response, [None] with an
    error. *)
Definition clientPost (url contentType body : string)
    : World -> (option Response * option error) * World :=
  fun w =>
    let req := {| Method := "POST"; URL := url;
                  Header := [("Content-Type", contentType)]; Payload := body |} in
    match roundTrip req w with
    | (Refused err, w') => ((None, Some err), w')
    | (Answered resp, w') => ((Some resp, None), w')
    end.

Definition parseToken (rsp : Response) : M jwtToken :=
  '(access, refresh) ← liftE (jsonUnmarshalToken (Body rsp));
  createdAt ← timeNow;
  mret {| Access := access; Refresh := refresh; CreatedAt := createdAt |}.

(** [refreshToken]: [auth.Token.Refresh] is read through the pointer. *)
Definition refreshToken (auth : JWTAuthenticator) (config : Config.VMSConfig)
    : World -> outcome (option Response * option error) * World :=
  fun w =>
    let path := GoURL.URLString "https" (Config.Host config) "api/token/refresh/" "" in
    match Token auth with
    | None => (Panic panic_nil_deref, w)
    | Some token =>
        let body := jsonMarshalStrings {[ "refresh" := Refresh token ]} in
        let '(r, w') := clientPost path "application/json" body w in
        (Ok r, w')
    end.

Definition acquireToken (auth : JWTAuthenticator) (config : Config.VMSConfig)
    : World -> outcome (option Response * option error) * World :=
  fun w =>
    let userPass : gmap string string :=
      {[ "username" := Config.Username config;
         "password" := Config.Password config ]} in
    let server := Config.Host config ++ ":" ++ Itoa (Config.Port config) in
    let body := jsonMarshalStrings userPass in
    let path := GoURL.URLString "https" server "api/token/" "" in
    let '(r, w') := clientPost path "application/json" body w in
    (Ok r, w').

Definition set_initialized (b : bool) (a : JWTAuthenticator) : JWTAuthenticator :=
  {| Username := Username a; Password := Password a; Token := Token a;
     initialized := b |}.

Definition set_Token (t : option jwtToken) (a : JWTAuthenticator) : JWTAuthenticator :=
  {| Username := Username a; Password := Password a; Token := t;
     initialized := initialized a |}.

(** The tail of [Authorize], after the exchange: validate, parse, store. *)
Definition acceptToken (resp : option Response) : M unit :=
  resp ← liftE (validateResponse resp);
  token ← parseToken resp;
  modify (fun w => set_jwt (set_Token (Some token) (jwt w)) w).

(** [(auth *JWTAuthenticator) Authorize(s)], the receiver being the
    authenticator of the world. The error of the exchange itself is
    overwritten by the one of [validateResponse]. *)
Definition Authorize (config : Config.VMSConfig) : M unit :=
  fun w =>
    let auth := jwt w in
    if initialized auth then
      match Token auth with
      | None => (Panic panic_nil_deref, w)
      | Some token =>
          let tokenExpired := TokenRefreshTime <=? timeSub (now w) (CreatedAt token) in
          if negb tokenExpired then (Ok tt, w)
          else
            match refreshToken auth config w with
            | (Ok (resp, _), w') => acceptToken resp w'
            | (Err e, w') => (Err e, w')
            | (Panic msg, w') => (Panic msg, w')
            end
      end
    else
      match acquireToken auth config w with
      | (Ok (resp, _), w') =>
          acceptToken resp (set_jwt (set_initialized true (jwt w')) w')
      | (Err e, w') => (Err e, w')
      | (Panic msg, w') => (Panic msg, w')
      end.

(** Which of the two authenticators a session holds. *)
Inductive Authenticator : Type := UseJWT | UseApiRToken.

Definition CreateAuthenticator (config : Config.VMSConfig) : M Authenticator :=
  if negb (String.eqb (Config.Username config) "")
     && negb (String.eqb (Config.Password config) "") then
    fun w => (Ok UseJWT,
              set_jwt {| Username := Config.Username config;
                         Password := Config.Password config;
                         Token := None; initialized := false |} w)
  else if negb (String.eqb (Config.ApiToken config) "") then
    fun w => (Ok UseApiRToken,
              set_apiToken {| ApiRToken := Config.ApiToken config |} w)
  else panic "CreateAuthenticator: neither username/password nor apiToken are provided".

(** [SetAuthHeader] of either authenticator: the header value to add. *)
Definition SetAuthHeader (auth : Authenticator) (config : Config.VMSConfig)
    : M string :=
  match auth with
  | UseJWT =>
      _ ← Authorize config;
      ((fun w =>
          match Token (jwt w) with
          | Some token => (Ok ("Bearer " ++ Access token), w)
          | None => (Panic panic_nil_deref, w)
          end) : M string)
  | UseApiRToken =>
      fun w =>
        let w' := if String.eqb (ApiRToken (apiToken w)) ""
                  then set_apiToken {| ApiRToken := Config.ApiToken config |} w
                  else w in
        (Ok ("Api-Token " ++ ApiRToken (apiToken w')), w')
  end.

End Engine.

(** ** The session, the dispatcher and the resources *)

(** [VMSSession]: its configuration and the authenticator it holds (whose
    fields live in the world). *)
Record VMSSession `{GoRuntime} `{GoVersion} : Type := {
  config : Config.VMSConfig;
  auth : Authenticator
}.

(** The interface [InterceptableVastResource], as far as [request] calls it. *)
Record InterceptableVastResource `{GoRuntime} `{GoVersion} : Type := {
  Session : RESTSession.t;
  GetResourceType : string;
  doBeforeRequest : string -> string -> option string -> M unit;
  doAfterRequest : Renderable -> M Renderable
}.

(** [VMSRest]: the session every resource points back to. *)
Record VMSRest `{GoRuntime} `{GoVersion} : Type := {
  restSession : RESTSession.t
}.

(** [VastResourceEntry]; its [rest] pointer is passed along with it. *)
Record VastResourceEntry `{GoVersion} : Type := {
  resourcePath : string;
  resourceType : string;
  apiVersion : string;
  availableFromVersion : option SemVer
}.

Section Dispatcher.
Context `{RT : GoRuntime} `{VL : GoVersion}.
Import GoStrings.

(** *** [VMSSession] *)

Definition setupHeaders (s : VMSSession) (r : Request) : M Request :=
  authorization ← SetAuthHeader (auth s) (config s);
  let userAgent :=
    Config.UserAgent (config s) ++ ", OS:" ++ GOOS ++ ", Arch:" ++ GOARCH in
  mret {| Method := Method r; URL := URL r;
          Header := Header r ++ [("Authorization", authorization);
                                 ("Accept", ApplicationJson);
                                 ("Content-type", ApplicationJson);
                                 ("User-Agent", userAgent)];
          Payload := Payload r |}.

Definition doRequest (s : VMSSession) (verb url : string) (body : option string)
    : M Response :=
  let body := default "" body in
  match httpNewRequest verb url with
  | Some err => fail (ErrorfW "request failed with error: %w" err)
  | None =>
      req ← setupHeaders s {| Method := verb; URL := url; Header := [];
                              Payload := body |};
      ((fun w =>
          match roundTrip req w with
          | (Refused responseErr, w') =>
              (Err (Errorf "failed to perform %s request to %s, error %v"
                      [ArgS verb; ArgS url; ArgE responseErr]), w')
          | (Answered response, w') =>
              liftE (validateResponse (Some response)) w'
          end) : M Response)
  end.

(** The five verbs of [*VMSSession]; [Get] sends no body. *)
Definition asRESTSession (s : VMSSession) : RESTSession.t :=
  {| RESTSession.Get := fun url _ => doRequest s "GET" url None;
     RESTSession.Post := doRequest s "POST";
     RESTSession.Put := doRequest s "PUT";
     RESTSession.Patch := doRequest s "PATCH";
     RESTSession.Delete := doRequest s "DELETE";
     RESTSession.GetConfig := config s |}.

Definition NewVMSSession (config : Config.VMSConfig) : M VMSSession :=
  auth ← CreateAuthenticator config;
  mret {| config := config; auth := auth |}.

(** *** [request] and its helpers *)

(** The body of a [Response] is all there: [io.ReadAll] does not fail. *)
Definition unmarshalToRecordUnion (T : RecordUnion) (response : Response)
    : error + carrier T :=
  match T return error + carrier T with
  | TEmptyRecord => inr nilMap
  | TRecord => jsonUnmarshalRecord (Body response)
  | TRecordSet => jsonUnmarshalRecordSet (Body response)
  end.

(** The body of both [Record] branches of [setResourceKey]. *)
Definition stamp (resourceType : string) (v : Record) : outcome Record :=
  match mapGet v resourceTypeKey with
  | Some _ => Ok v
  | None => mapSet v resourceTypeKey (VString resourceType)
  end.

Fixpoint stampAll (resourceType : string) (v : RecordSet) : outcome RecordSet :=
  match v with
  | [] => Ok []
  | rec :: rest =>
      match stamp resourceType rec with
      | Ok rec' =>
          match stampAll resourceType rest with
          | Ok rest' => Ok (rec' :: rest')
          | Err e => Err e
          | Panic msg => Panic msg
          end
      | Err e => Err e
      | Panic msg => Panic msg
      end
  end.

Definition setResourceKey (T : RecordUnion) (result : error + carrier T)
    (resourceType : string) : outcome (carrier T) :=
  match result with
  | inl err => Err err
  | inr result =>
      match T return carrier T -> outcome (carrier T) with
      | TRecord => stamp resourceType
      | TRecordSet => stampAll resourceType
      | TEmptyRecord => Ok
      end result
  end.

Definition resolveVerb (session : RESTSession.t) (verb : string)
    : option RESTSession.VMSSessionMethod :=
  if String.eqb verb "GET" then Some (RESTSession.Get session)
  else if String.eqb verb "POST" then Some (RESTSession.Post session)
  else if String.eqb verb "PUT" then Some (RESTSession.Put session)
  else if String.eqb verb "PATCH" then Some (RESTSession.Patch session)
  else if String.eqb verb "DELETE" then Some (RESTSession.Delete session)
  else None.

(** The request body and its copy for the before-request hook. *)
Definition bodies (body : Params) : error + (option string * option string) :=
  if negb (isNil body) then
    match ToBody body with
    | inl err => inl err
    | inr data =>
        match ToBody body with
        | inl err => inl err
        | inr beforeRequestCbData => inr (Some data, Some beforeRequestCbData)
        end
    end
  else inr (Some "", None).

(** [request], up to and including [setResourceKey]: the decoded and
    tagged result that goes to the after-request interceptor. *)
Definition requestDecoded (T : RecordUnion) (r : InterceptableVastResource)
    (verb path apiVer : string) (params body : Params) : M (carrier T) :=
  let verb := ToUpper verb in
  let session := Session r in
  match resolveVerb session verb with
  | None => fail (Errorf "unknown verb: %s" [ArgS verb])
  | Some vmsMethod =>
      let query := if negb (isNil params) then ToQuery params else "" in
      '(data, beforeRequestCbData) ← liftE (bodies body);
      url ← liftE (buildUrl session path query apiVer);
      _ ← doBeforeRequest r verb url beforeRequestCbData;
      response ← vmsMethod url data;
      let result := unmarshalToRecordUnion T response in
      _ ← match result with inl err => Println err | inr _ => mret tt end;
      liftO (setResourceKey T result (GetResourceType r))
  end.

(** [request[T]]: the rest of it is the after-request interceptor and the
    type assertion [interceptedResult.(T)] on what it returned. *)
Definition request (T : RecordUnion) (r : InterceptableVastResource)
    (verb path apiVer : string) (params body : Params) : M (carrier T) :=
  result ← requestDecoded T r verb path apiVer params body;
  interceptedResult ← doAfterRequest r (toRenderable T result);
  liftO (assertT T interceptedResult).

(** [NewVMSRest], on a configuration that [Validate] has been through. *)
Definition NewVMSRest (config : Config.VMSConfig) : M VMSRest :=
  session ← NewVMSSession config;
  mret {| restSession := asRESTSession session |}.

(** Modelled from the spec: [doBeforeRequest] and [doAfterRequest] of
    [*VastResourceEntry] are not among the sources at hand. The spec
    (section 4.4, steps 4 and 8, and section 6) has them invoke the
    optional hook of the configuration; without a hook nothing happens
    and the result is returned as it is. *)
Definition configBeforeRequest (rest : VMSRest) (e : VastResourceEntry)
    (verb url : string) (body : option string) : M unit :=
  match Config.BeforeRequestFn (RESTSession.GetConfig (restSession rest)) with
  | Some fn => fn verb url body
  | None => mret tt
  end.

Definition configAfterRequest (rest : VMSRest) (e : VastResourceEntry)
    (response : Renderable) : M Renderable :=
  match Config.AfterRequestFn (RESTSession.GetConfig (restSession rest)) with
  | Some fn => fn response
  | None => mret response
  end.

End Dispatcher.

Section Resources.
Context `{RT : GoRuntime} `{VL : GoVersion}.
Import GoStrings.

(** The two interceptor methods of [*VastResourceEntry]. Their code is not
    among the sources at hand, and [request] only reaches them through
    the interface, so everything below takes them as parameters. *)
Variable entryBeforeRequest :
  VMSRest -> VastResourceEntry -> string -> string -> option string -> M unit.
Variable entryAfterRequest :
  VMSRest -> VastResourceEntry -> Renderable -> M Renderable.

(** [*VastResourceEntry] as an [InterceptableVastResource]. *)
Definition asResource (rest : VMSRest) (e : VastResourceEntry)
    : InterceptableVastResource :=
  {| Session := restSession rest;
     GetResourceType := resourceType e;
     doBeforeRequest := entryBeforeRequest rest e;
     doAfterRequest := entryAfterRequest rest e |}.

(** [newResource[T](rest, resourcePath, availableFromVersion)]; [T] is the
    name of the type parameter. The struct literal leaves [apiVersion] at
    its zero value. *)
Definition newResource (T resourcePath availableFromVersion : string)
    : VastResourceEntry :=
  let availableFrom :=
    if String.eqb availableFromVersion dummyClusterVersion then None
    else match NewVersion availableFromVersion with
         | inr v => Some v
         | inl _ => None
         end in
  {| resourcePath := resourcePath;
     resourceType := T;
     apiVersion := "";
     availableFromVersion := availableFrom |}.

(** Some of the resources [NewVMSRest] fills in. *)
Definition Versions : VastResourceEntry := newResource "Version" "versions" dummyClusterVersion.
Definition VTasks : VastResourceEntry := newResource "VTask" "vtasks" dummyClusterVersion.
Definition Views : VastResourceEntry := newResource "View" "views" dummyClusterVersion.
Definition Quotas : VastResourceEntry := newResource "Quota" "quotas" dummyClusterVersion.
Definition Volumes : VastResourceEntry := newResource "Volume" "volumes" "5.3.0".
Definition BlockHosts : VastResourceEntry := newResource "BlockHost" "blockhosts" "5.3.0".

(** The call [request[RecordSet]] that [List] and [Get] make. *)
Definition listRequest (rest : VMSRest) (e : VastResourceEntry) (params : Params)
    : M RecordSet :=
  request TRecordSet (asResource rest e) "GET" (resourcePath e) (apiVersion e)
    params nilMap.

(** *** The cluster version and the gate *)

(** [(v *Version) GetVersion], [v] being [rest.Versions]. Its [v.List] is
    written as the request [List] makes once the gate of the [Version]
    resource, which has no minimum version, has let it through. *)
Definition GetVersion (rest : VMSRest) : M SemVer :=
  fun w =>
    match sysVersion w with
    | Some v => (Ok v, w)
    | None =>
        (result ← listRequest rest Versions (mkMap {[ "status" := VString "success" ]});
         match result with
         | [] => panic panic_index
         | first :: _ =>
             match index first "sys_version" with
             | VString s =>
                 '(truncatedVersion, _) ← liftO (sanitizeVersion s);
                 clusterVersion ← liftE (NewVersion truncatedVersion);
                 _ ← modify (set_sysVersion (Some (Core clusterVersion)));
                 mret (Core clusterVersion)
             | _ => panic panic_conversion
             end
         end) w
    end.

Definition CompareWith (rest : VMSRest) (other : SemVer) : M Z :=
  clusterVersion ← GetVersion rest;
  mret (Compare clusterVersion other).

(** How [%s] prints a [*version.Version] that may be nil. *)
Definition showVersion (v : option SemVer) : string :=
  match v with
  | Some v => VersionString v
  | None => "<nil>"
  end.

Definition checkVastResourceVersionCompat (rest : VMSRest) (e : VastResourceEntry)
    : M unit :=
  match availableFromVersion e with
  | None => mret tt
  | Some minimum =>
      compareOrd ← CompareWith rest minimum;
      clusterVersion ← ignoreErr (GetVersion rest);
      if compareOrd =? -1 then
        fail (Errorf "resource %q is not supported in VAST cluster version %s (supported from version %s)"
                [ArgS (resourceType e); ArgS (showVersion clusterVersion);
                 ArgS (VersionString minimum)])
      else mret tt
  end.

(** *** The CRUD operations of [*VastResourceEntry] *)

Definition List (rest : VMSRest) (e : VastResourceEntry) (params : Params)
    : M RecordSet :=
  _ ← checkVastResourceVersionCompat rest e;
  listRequest rest e params.

Definition Create (rest : VMSRest) (e : VastResourceEntry) (body : Params)
    : M Record :=
  _ ← checkVastResourceVersionCompat rest e;
  request TRecord (asResource rest e) "POST" (resourcePath e) (apiVersion e)
    nilMap body.

Definition Update (rest : VMSRest) (e : VastResourceEntry) (id : Z) (body : Params)
    : M Record :=
  _ ← checkVastResourceVersionCompat rest e;
  let path := resourcePath e ++ "/" ++ Itoa id in
  request TRecord (asResource rest e) "PATCH" path (apiVersion e) nilMap body.

Definition DeleteById (rest : VMSRest) (e : VastResourceEntry) (id : Z)
    : M EmptyRecord :=
  _ ← checkVastResourceVersionCompat rest e;
  let path := resourcePath e ++ "/" ++ Itoa id in
  request TEmptyRecord (asResource rest e) "DELETE" path (apiVersion e)
    nilMap nilMap.

Definition Get (rest : VMSRest) (e : VastResourceEntry) (params : Params)
    : M Record :=
  _ ← checkVastResourceVersionCompat rest e;
  result ← listRequest rest e params;
  match result with
  | [] => fail (NotFoundError (resourcePath e) (ToQuery params))
  | [one] => mret one
  | _ => fail (Errorf "more than one resource '%s' found for params '%v'"
                 [ArgS (resourcePath e); ArgS (ToQuery params)])
  end.

Definition GetById (rest : VMSRest) (e : VastResourceEntry) (id : Z) : M Record :=
  _ ← checkVastResourceVersionCompat rest e;
  let path := resourcePath e ++ "/" ++ Itoa id in
  request TRecord (asResource rest e) "GET" path (apiVersion e) nilMap nilMap.

Definition Delete (rest : VMSRest) (e : VastResourceEntry) (params : Params)
    : M EmptyRecord :=
  fun w =>
    match Get rest e params w with
    | (Err err, w') =>
        if isNotFoundErr err then (Ok (mkMap ∅), w') else (Err err, w')
    | (Panic msg, w') => (Panic msg, w')
    | (Ok result, w') =>
        match mapGet result "id" with
        | None =>
            (Err (Errorf "resource '%s' does not have id field in body and thereby cannot be deleted by id" []), w')
        | Some idVal =>
            match toInt idVal with
            | Ok idInt => DeleteById rest e idInt w'
            | Err err => (Err err, w')
            | Panic msg => (Panic msg, w')
            end
        end
    end.

Definition Ensure (rest : VMSRest) (e : VastResourceEntry) (name : string)
    (body : Params) : M Record :=
  fun w =>
    match Get rest e (mkMap {[ "name" := VString name ]}) w with
    | (Err err, w') =>
        if isNotFoundErr err then
          match mapSet body "name" (VString name) with
          | Ok body' => Create rest e body' w'
          | Err err' => (Err err', w')
          | Panic msg => (Panic msg, w')
          end
        else (Err err, w')
    | (Panic msg, w') => (Panic msg, w')
    | (Ok result, w') => (Ok result, w')
    end.

(** *** [VTask.WaitTask] *)

Definition isTaskComplete (rest : VMSRest) (t : VastResourceEntry) (taskId : Z)
    : M Record :=
  task ← GetById rest t taskId;
  let taskName := fmtSprint (index task "name") in
  let taskState := ToLower (fmtSprint (index task "state")) in
  _taskId ← liftO (toInt (index task "id"));
  if String.eqb taskState "completed" then mret task
  else if String.eqb taskState "running" then
    fail (Errorf "task %s with ID %s is still running, timeout occurred"
            [ArgS taskName; ArgD _taskId])
  else
    let rawMessages := index task "messages" in
    match rawMessages with
    | VSlice messages =>
        match last messages with
        | None =>
            fail (Errorf "task %s failed with ID %s: no messages found"
                    [ArgS taskName; ArgD _taskId])
        | Some lastItem =>
            let lastMsg := fmtSprint lastItem in
            fail (Errorf "task %s failed with ID %s: %s"
                    [ArgS taskName; ArgD _taskId; ArgS lastMsg])
        end
    | _ => fail (Errorf "unexpected message format: %T" [ArgT rawMessages])
    end.

(** The polling loop with [retries] attempts left. *)
Fixpoint waitLoop (rest : VMSRest) (t : VastResourceEntry) (taskId : Z)
    (retries : nat) (interval backoffRate : Z) : M Record :=
  match retries with
  | O => fail (Errorf "task did not complete in time" [])
  | S retries' =>
      fun w =>
        match isTaskComplete rest t taskId w with
        | (Ok task, w') => (Ok task, w')
        | (Err _, w') =>
            match timeSleep interval w' with
            | (_, w'') =>
                waitLoop rest t taskId retries' (interval * backoffRate)
                  backoffRate w''
            end
        | (Panic msg, w') => (Panic msg, w')
        end
  end.

Definition WaitTask (rest : VMSRest) (t : VastResourceEntry) (taskId : Z)
    : M Record :=
  let retries := 30%nat in
  let interval := 1000000 * 500 in
  let backoffRate := 1 in
  waitLoop rest t taskId retries interval backoffRate.

End Resources.

(** ** A concrete environment

    One runtime, one version library and one appliance, small enough to
    run: the examples and the witnesses below are evaluated in it. *)

Module Sample.
Import GoStrings.

(** The double quote, and a JSON string literal of plain characters. *)
Definition dq : string := String "034"%char EmptyString.
Definition q (s : string) : string := dq ++ s ++ dq.

Fixpoint parseDigits (s : string) (acc : Z) : option Z :=
  match s with
  | EmptyString => Some acc
  | String c r =>
      if isDigit c then parseDigits r (acc * 10 + (byteOf c - 48)) else None
  end.

Definition Atoi (s : string) : option Z :=
  match s with
  | EmptyString => None
  | _ => parseDigits s 0
  end.

Fixpoint parseSegments (l : list string) : option (list Z) :=
  match l with
  | [] => Some []
  | s :: rest =>
      match Atoi s, parseSegments rest with
      | Some n, Some ns => Some (n :: ns)
      | _, _ => None
      end
  end.

Definition allZero (l : list Z) : bool := forallb (Z.eqb 0) l.

Fixpoint compareSegments (a b : list Z) : Z :=
  match a, b with
  | [], [] => 0
  | [], _ => if allZero b then 0 else -1
  | _, [] => if allZero a then 0 else 1
  | x :: a', y :: b' =>
      if x =? y then compareSegments a' b' else if x <? y then -1 else 1
  end.

(** Versions made of numeric segments only, compared segment by segment;
    fewer than three segments are padded with zeros. *)
#[export] Instance versions : GoVersion := {|
  SemVer := list Z;
  NewVersion := fun s =>
    match parseSegments (Split s ".") with
    | Some segs => inr (segs ++ replicate (3 - length segs)%nat 0)%list
    | None => inl (Errorf "Malformed version: %s" [ArgS s])
    end;
  Core := take 3;
  Compare := compareSegments;
  VersionString := fun v => Join (map Itoa v) "."
|}.

(** JSON texts the appliance sends, next to what they decode to. *)
Definition tokenBody : string :=
  "{" ++ q "access" ++ ":" ++ q "A1" ++ "," ++ q "refresh" ++ ":" ++ q "R1" ++ "}".

Definition versionsBody : string :=
  "[{" ++ q "sys_version" ++ ":" ++ q "5.2.0.11" ++ "}]".

Definition failedTaskBody : string :=
  "{" ++ q "id" ++ ":7," ++ q "name" ++ ":" ++ q "map" ++ "," ++ q "state" ++ ":"
  ++ q "FAILED" ++ "," ++ q "messages" ++ ":[" ++ q "started" ++ "," ++ q "boom" ++ "]}".

Definition quotasBody : string :=
  "[{" ++ q "id" ++ ":7.9," ++ q "name" ++ ":" ++ q "q1" ++ "}]".

Definition oddVersionsBody : string :=
  "[{" ++ q "sys_version" ++ ":5}]".

Definition twoViewsBody : string :=
  "[{" ++ q "id" ++ ":1},{" ++ q "id" ++ ":2}]".

(** The [float64] nearest to 7.9 and the one that is 7. *)
Definition f7_9 : spec_float := S754_finite false 8894609264056730 (-50).
Definition f7 : spec_float := S754_finite false 7881299347898368 (-50).
Definition f5 : spec_float := S754_finite false 5629499534213120 (-50).
Definition f1 : spec_float := S754_finite false 4503599627370496 (-52).
Definition f2 : spec_float := S754_finite false 4503599627370496 (-51).

Definition failedTask : Record :=
  mkMap (<[ "id" := VFloat64 f7 ]>
         (<[ "name" := VString "map" ]>
          (<[ "state" := VString "FAILED" ]>
           (<[ "messages" := VSlice [VString "started"; VString "boom"] ]> ∅)))).

Definition quota : Record :=
  mkMap (<[ "id" := VFloat64 f7_9 ]> (<[ "name" := VString "q1" ]> ∅)).

Definition decodeRecordSet (body : string) : error + RecordSet :=
  if String.eqb body "[]" then inr []
  else if String.eqb body versionsBody then
    inr [mkMap {[ "sys_version" := VString "5.2.0.11" ]}]
  else if String.eqb body oddVersionsBody then
    inr [mkMap {[ "sys_version" := VFloat64 f5 ]}]
  else if String.eqb body quotasBody then inr [quota]
  else if String.eqb body twoViewsBody then
    inr [mkMap {[ "id" := VFloat64 f1 ]}; mkMap {[ "id" := VFloat64 f2 ]}]
  else inl (ForeignError "json: cannot unmarshal").

Definition decodeRecord (body : string) : error + Record :=
  if String.eqb body failedTaskBody then inr failedTask
  else if String.eqb body "{}" then inr (mkMap ∅)
  else inl (ForeignError "json: cannot unmarshal").

Definition decodeToken (body : string) : error + (string * string) :=
  if String.eqb body tokenBody then inr ("A1", "R1")
  else inl (ForeignError "json: cannot unmarshal").

Definition byKey (a b : string * string) : Prop := String.leb a.1 b.1 = true.

#[local] Instance byKey_dec : RelDecision byKey :=
  fun a b => decide (String.leb a.1 b.1 = true).

(** A runtime that agrees with Go on what the examples hand to it:
    [Sprint] of strings, nil, booleans and integers; JSON objects of
    plain strings; the JSON texts above. *)
#[export] Instance runtime : GoRuntime := {|
  fmtSprint := fun v =>
    match v with
    | VString s => s
    | VNil => "<nil>"
    | VBool b => if b then "true" else "false"
    | VInt n | VInt64 n => Itoa n
    | _ => "?"
    end;
  jsonMarshal := fun p =>
    match p with
    | nilMap => inr "null"
    | mkMap g =>
        if decide (g = ∅) then inr "{}"
        else inl (ForeignError "json: unsupported value")
    end;
  jsonMarshalStrings := fun m =>
    "{" ++ Join (map (fun kv => q kv.1 ++ ":" ++ q kv.2)
                   (merge_sort byKey (map_to_list m))) "," ++ "}";
  jsonUnmarshalRecord := decodeRecord;
  jsonUnmarshalRecordSet := decodeRecordSet;
  jsonUnmarshalToken := decodeToken;
  jsonIndent := fun _ => None;
  int64_other := int64_min;
  httpNewRequest := fun _ _ => None;
  GOOS := "linux";
  GOARCH := "amd64"
|}.

Definition sampleConfig : Config.VMSConfig := {|
  Config.Host := "10.27.40.1";
  Config.Port := 443;
  Config.Username := "admin";
  Config.Password := "123456";
  Config.ApiToken := "";
  Config.SslVerify := false;
  Config.Timeout := 30 * 1000000000;
  Config.MaxConnections := 10;
  Config.UserAgent := "vast-go-client";
  Config.ApiVersion := "v5";
  Config.BeforeRequestFn := None;
  Config.AfterRequestFn := None
|}.

Definition answer (code : Z) (body : string) : Z * RoundTrip :=
  (1000000, Answered {| StatusCode := code; Body := body |}).

(** An appliance that issues tokens, has no view, one quota, a failed
    task 7 and the given list of versions. *)
Definition appliance (versions : string) : Remote :=
  fun _ req =>
    let base := "https://10.27.40.1:443/api/" in
    if String.eqb (URL req) (base ++ "token/") then answer 200 tokenBody
    else if String.eqb (URL req) (base ++ "views") then answer 200 "[]"
    else if String.eqb (URL req) (base ++ "views?name=v") then answer 200 twoViewsBody
    else if String.eqb (URL req) (base ++ "quotas") then answer 200 quotasBody
    else if String.eqb (URL req) (base ++ "quotas/7") then answer 204 ""
    else if String.eqb (URL req) (base ++ "vtasks/7") then answer 200 failedTaskBody
    else if String.eqb (URL req) (base ++ "versions?status=success")
    then answer 200 versions
    else answer 404 "".

(** An appliance that turns every request down, and one that cannot be
    reached. *)
Definition lockedOut : Remote := fun _ _ => answer 401 "".

Definition unreachable : Remote :=
  fun _ _ => (1000000, Refused (ForeignError "dial tcp: connection refused")).

(** The world before [NewVMSRest]. *)
Definition world0 (r : Remote) : World := {|
  now := 0;
  wire := [];
  remote := r;
  sysVersion := None;
  jwt := {| Username := ""; Password := ""; Token := None; initialized := false |};
  apiToken := {| ApiRToken := "" |};
  stdout := []
|}.

(** [NewVMSRest(sampleConfig)] and the world it leaves. *)
Definition sampleRest : VMSRest :=
  {| restSession := asRESTSession {| config := sampleConfig; auth := UseJWT |} |}.

Definition bootedWith (config : Config.VMSConfig) (r : Remote) : World :=
  (NewVMSRest config (world0 r)).2.

Definition booted (r : Remote) : World := bootedWith sampleConfig r.

(** What went over the wire: method and URL of each request. *)
Definition traffic (w : World) : list (string * string) :=
  map (fun r => (Method r, URL r)) (wire w).

(** An after-request hook that answers every call with an empty
    [RecordSet]. *)
Definition hookedConfig : Config.VMSConfig := {|
  Config.Host := "10.27.40.1";
  Config.Port := 443;
  Config.Username := "admin";
  Config.Password := "123456";
  Config.ApiToken := "";
  Config.SslVerify := false;
  Config.Timeout := 30 * 1000000000;
  Config.MaxConnections := 10;
  Config.UserAgent := "vast-go-client";
  Config.ApiVersion := "v5";
  Config.BeforeRequestFn := None;
  Config.AfterRequestFn := Some (fun _ => mret (RRecordSet []))
|}.

Definition hookedRest : VMSRest :=
  {| restSession := asRESTSession {| config := hookedConfig; auth := UseJWT |} |}.

End Sample.

(** ** Notions the properties are stated with *)

(** The merge [Update] computes, as a union of finite maps: with [override]
    the receiver wins on common keys, without it the incoming map does. *)
Definition merged (p q : gmap string Value) (override : bool) : gmap string Value :=
  if override then p ∪ q else q ∪ p.

(** The error of the version gate. *)
Definition versionIncompatible `{GoVersion} (e : VastResourceEntry) (cluster minimum : SemVer)
    : error :=
  Errorf "resource %q is not supported in VAST cluster version %s (supported from version %s)"
    [ArgS (resourceType e); ArgS (VersionString cluster); ArgS (VersionString minimum)].

(** The error of [Get] on two or more matches. *)
Definition ambiguousMatch `{GoRuntime} `{GoVersion} (e : VastResourceEntry) (params : Params)
    : error :=
  Errorf "more than one resource '%s' found for params '%v'"
    [ArgS (resourcePath e); ArgS (ToQuery params)].

(** The error [WaitTask] ends with when the budget is spent. *)
Definition taskTimeout : error := Errorf "task did not complete in time" [].

(** A [spec_float] that a [float64] can hold: 53 bits of precision. *)
Definition isFloat64 (f : spec_float) : bool := valid_binary 53 1024 f.

(** The error of [Delete] on a record without an [id]. *)
Definition missingId : error :=
  Errorf "resource '%s' does not have id field in body and thereby cannot be deleted by id" [].

(** The error of [toInt] on a value that is no [int64], [float64] or [int]. *)
Definition unexpectedIdType (v : Value) : error :=
  Errorf "unexpected type for id field: %T" [ArgT v].

(** The two exchanges of the token authenticator, as they go on the wire. *)
Definition acquireRequest `{GoRuntime} `{GoVersion} (config : Config.VMSConfig) : Request :=
  {| Method := "POST";
     URL := GoURL.URLString "https"
              (Config.Host config ++ ":" ++ GoStrings.Itoa (Config.Port config))
              "api/token/" "";
     Header := [("Content-Type", "application/json")];
     Payload := jsonMarshalStrings {[ "username" := Config.Username config;
                                      "password" := Config.Password config ]} |}.

Definition refreshRequest `{GoRuntime} `{GoVersion} (config : Config.VMSConfig)
    (token : jwtToken) : Request :=
  {| Method := "POST";
     URL := GoURL.URLString "https" (Config.Host config) "api/token/refresh/" "";
     Header := [("Content-Type", "application/json")];
     Payload := jsonMarshalStrings {[ "refresh" := Refresh token ]} |}.

(** ** More of the package *)

(** *** [utils.go]: [toRecord], [toRecordSet] *)

(** [toRecord] along one iteration order of its argument: a fresh [Record]
    that each entry is written to. *)
Definition toRecordIn (order : list (string * Value)) : error + Record :=
  inr (mkMap (fold_left (fun converted kv => <[ kv.1 := kv.2 ]> converted) order ∅)).

Definition toRecord (m : GoMap Value) : error + Record :=
  toRecordIn (map_to_list (entries m)).

Fixpoint toRecordSet (items : list (GoMap Value)) : error + RecordSet :=
  match items with
  | [] => inr []
  | item :: rest =>
      match toRecord item with
      | inl err => inl err
      | inr rec =>
          match toRecordSet rest with
          | inl err => inl err
          | inr records => inr (rec :: records)
          end
      end
  end.

(** *** Response shapes: [applyCallbackForRecordUnion] *)

(** The name [%T] prints for what a [Renderable] holds. *)
Definition typeNameOf (v : Renderable) : string :=
  match v with
  | RRecord _ => "vast_client.Record"
  | REmptyRecord _ => "vast_client.EmptyRecord"
  | RRecordSet _ => "vast_client.RecordSet"
  | ROther name => name
  | RNil => "<nil>"
  end.

(** [applyCallbackForRecordUnion[T](response, callback)] *)
Definition applyCallbackForRecordUnion (T : RecordUnion) (response : Renderable)
    (callback : Renderable -> outcome Renderable) : outcome Renderable :=
  match response with
  | RRecord _ =>
      match T with TRecord => callback response | _ => Ok response end
  | RRecordSet _ =>
      match T with TRecordSet => callback response | _ => Ok response end
  | REmptyRecord _ =>
      match T with TEmptyRecord => callback response | _ => Ok response end
  | _ => Err (Errorf "unsupported type %T for result" [ArgS (typeNameOf response)])
  end.

(** [any(r).(map[string]interface{})] on a [Renderable]: the assertion
    asks for the unnamed map type. [Record] and [EmptyRecord] are named
    types of their own and [RecordSet] is a slice, so none of them has it;
    the unnamed type has no [Render] method, so no other [Renderable]
    holds it either. *)
Definition asPlainMap (r : Renderable) : option (GoMap Value) :=
  match r with
  | RRecord _ | REmptyRecord _ | RRecordSet _ | ROther _ | RNil => None
  end.

(** [inner.([]map[string]any)]: of the values an [any] holds here only one
    of another dynamic type, a [VOther], can be such a slice; its elements
    are then not at hand, which is why [elements] is a parameter. *)
Definition asMapSlice (elements : string -> option (list (GoMap Value)))
    (inner : Value) : option (list (GoMap Value)) :=
  match inner with
  | VOther ty => if String.eqb ty "[]map[string]interface {}" then elements ty else None
  | _ => None
  end.

(** [(s *Snapshot) afterRequest] *)
Definition Snapshot_afterRequest (elements : string -> option (list (GoMap Value)))
    (response : Renderable) : outcome Renderable :=
  applyCallbackForRecordUnion TRecordSet response
    (fun r =>
       match asPlainMap r with
       | Some rawMap =>
           match mapGet rawMap "results" with
           | Some inner =>
               match asMapSlice elements inner with
               | Some items =>
                   match toRecordSet items with
                   | inr records => Ok (RRecordSet records)
                   | inl err => Err err
                   end
               | None => Ok r
               end
           | None => Ok r
           end
       | None => Ok r
       end).

(** *** [getPrintableAttrs] *)

(** The keys of the package variable [printableAttrs]. *)
Definition printableAttrs : list string :=
  ["id"; "name"; "sys_version"; "path"; "tenant_id"; "nqn"; "ip_ranges";
   "volumes"; "nguid"; "subsystem_name"; "size"; "block_host"; "volume"; "state"].

(** The order of [sort.Strings]: byte by byte. *)
Definition stringLe (a b : string) : Prop := String.leb a b = true.

#[global] Instance stringLe_dec : RelDecision stringLe :=
  fun a b => decide (String.leb a b = true).

(** [getPrintableAttrs] along one iteration order of the record: the
    printable keys are appended as the loop meets them, then sorted. *)
Definition getPrintableAttrsIn (order : list (string * Value)) : list string :=
  merge_sort stringLe (filter (fun key => key ∈ printableAttrs) order.*1).

Definition getPrintableAttrs (r : Record) : list string :=
  getPrintableAttrsIn (map_to_list (entries r)).

(** *** The five verbs *)

Definition knownVerbs : list string := ["GET"; "POST"; "PUT"; "PATCH"; "DELETE"].

Section MoreDispatcher.
Context `{RT : GoRuntime} `{VL : GoVersion}.
Import GoStrings.

(** [request] up to and including the call of the session: what comes
    back is the validated response. *)
Definition requestSent (r : InterceptableVastResource)
    (verb path apiVer : string) (params body : Params) : M Response :=
  let verb := ToUpper verb in
  let session := Session r in
  match resolveVerb session verb with
  | None => fail (Errorf "unknown verb: %s" [ArgS verb])
  | Some vmsMethod =>
      let query := if negb (isNil params) then ToQuery params else "" in
      '(data, beforeRequestCbData) ← liftE (bodies body);
      url ← liftE (buildUrl session path query apiVer);
      _ ← doBeforeRequest r verb url beforeRequestCbData;
      vmsMethod url data
  end.

(** What [request] does with a response: decode, print a decoding error,
    tag. *)
Definition decodeAndTag (T : RecordUnion) (r : InterceptableVastResource)
    (response : Response) : M (carrier T) :=
  let result := unmarshalToRecordUnion T response in
  _ ← match result with inl err => Println err | inr _ => mret tt end;
  liftO (setResourceKey T result (GetResourceType r)).

(** The request [doRequest] puts on the wire once the authorization header
    is there. *)
Definition outgoing (s : VMSSession) (verb url : string) (body : option string)
    (authorization : string) : Request :=
  {| Method := verb;
     URL := url;
     Header := [("Authorization", authorization);
                ("Accept", ApplicationJson);
                ("Content-type", ApplicationJson);
                ("User-Agent",
                 Config.UserAgent (config s) ++ ", OS:" ++ GOOS ++ ", Arch:" ++ GOARCH)];
     Payload := default "" body |}.

End MoreDispatcher.

Section MoreResources.
Context `{RT : GoRuntime} `{VL : GoVersion}.
Variable entryBeforeRequest :
  VMSRest -> VastResourceEntry -> string -> string -> option string -> M unit.
Variable entryAfterRequest :
  VMSRest -> VastResourceEntry -> Renderable -> M Renderable.

(** [(bh *BlockHost) EnsureBlockHost]; [tenantId] is an [int]. *)
Definition EnsureBlockHost (rest : VMSRest) (bh : VastResourceEntry)
    (name : string) (tenantId : Z) (nqn : string) : M Record :=
  let params : Params :=
    mkMap (<[ "name" := VString name ]> (<[ "tenant_id" := VInt tenantId ]> ∅)) in
  fun w =>
    match Get entryBeforeRequest entryAfterRequest rest bh params w with
    | (Err err, w') =>
        if isNotFoundErr err then
          match ParamsM.Update params
                  (mkMap (<[ "nqn" := VString nqn ]>
                          (<[ "os_type" := VString "LINUX" ]>
                           (<[ "connectivity_type" := VString "tcp" ]> ∅))))
                  false with
          | Ok params' =>
              Create entryBeforeRequest entryAfterRequest rest bh params' w'
          | Err err' => (Err err', w')
          | Panic msg => (Panic msg, w')
          end
        else (Err err, w')
    | (Panic msg, w') => (Panic msg, w')
    | (Ok blockHost, w') => (Ok blockHost, w')
    end.

End MoreResources.

(** *** Notions the further properties are stated with *)

(** The integer a finite float is, when it is one. *)
Definition wholeValue (f : spec_float) : option Z :=
  match f with
  | S754_zero _ => Some 0
  | S754_finite neg m e =>
      if 0 <=? e then Some (signed neg m * 2 ^ e)
      else if Z.rem (signed neg m) (2 ^ (- e)) =? 0
           then Some (Z.quot (signed neg m) (2 ^ (- e)))
           else None
  | _ => None
  end.

(** The tag [setResourceKey] leaves on a record: the one it had, or the
    resource type. *)
Definition tagged (resourceType : string) (r : gmap string Value) : gmap string Value :=
  match r !! resourceTypeKey with
  | Some _ => r
  | None => <[ resourceTypeKey := VString resourceType ]> r
  end.

(** ** More of the concrete environment *)

Module Fixtures.
Import Sample.

(** A client that authenticates with an API token. *)
Definition tokenConfig : Config.VMSConfig := {|
  Config.Host := "10.27.40.1";
  Config.Port := 443;
  Config.Username := "";
  Config.Password := "";
  Config.ApiToken := "s3cr3t";
  Config.SslVerify := false;
  Config.Timeout := 30 * 1000000000;
  Config.MaxConnections := 10;
  Config.UserAgent := "vast-go-client";
  Config.ApiVersion := "v5";
  Config.BeforeRequestFn := None;
  Config.AfterRequestFn := None
|}.

Definition tokenSession : VMSSession :=
  {| config := tokenConfig; auth := UseApiRToken |}.

(** The session of [sampleRest]. *)
Definition jwtSession : VMSSession :=
  {| config := sampleConfig; auth := UseJWT |}.

(** A resource whose before-request interceptor turns every call down. *)
Definition refusing : InterceptableVastResource :=
  {| Session := restSession sampleRest;
     GetResourceType := "View";
     doBeforeRequest := fun _ _ _ => fail (ForeignError "not now");
     doAfterRequest := fun v => mret v |}.

(** A world whose token is ten minutes old, in front of an appliance
    that turns every request down. *)
Definition staleToken : jwtToken :=
  {| Access := "A0"; Refresh := "R0"; CreatedAt := 0 |}.

Definition staleWorld : World :=
  set_now TokenRefreshTime
    (set_jwt {| Username := "admin"; Password := "123456";
                Token := Some staleToken; initialized := true |}
       (world0 lockedOut)).

(** An appliance that issues tokens and has nothing of anything: every
    list is empty. *)
Definition emptyHanded : Remote :=
  fun _ req =>
    if String.eqb (URL req) "https://10.27.40.1:443/api/token/"
    then answer 200 tokenBody
    else answer 200 "[]".

(** An after-request interceptor that reports every task as completed. *)
Definition completedTask : Record :=
  mkMap (<[ "id" := VInt 7 ]> (<[ "state" := VString "Completed" ]> ∅)).

Definition allDone : VMSRest -> VastResourceEntry -> Renderable -> M Renderable :=
  fun _ _ _ => mret (RRecord completedTask).

End Fixtures.

(** * Properties *)

(** ** [Params.Update] *)

Section UpdateProps.

(** One visit of the loop on an allocated receiver. *)
Lemma step_allocated (p : gmap string Value) (override : bool) key value :
ParamsM.step override key value (Ok (mkMap p))
= Ok (mkMap (match p !! key with
             | Some _ => if override then p else <[key := value]> p
             | None => <[key := value]> p
             end)).
Proof. unfold ParamsM.step, mapGet. simpl. by destruct (p !! key), override. Qed.

Lemma merged_insert (p m : gmap string Value) (override : bool) key value :
m !! key = None ->
merged (match p !! key with
        | Some _ => if override then p else <[key := value]> p
        | None => <[key := value]> p
        end) m override
= merged p (<[key := value]> m) override.
Proof.
intros Hfresh. unfold merged. destruct override.
- destruct (p !! key) as [u|] eqn:Hp.
  + apply map_eq. intros k. rewrite !lookup_union.
    destruct (decide (k = key)) as [->|Hne].
    * by rewrite Hp, Hfresh, lookup_insert_eq.
    * by rewrite lookup_insert_ne.
  + by rewrite <- insert_union_l, insert_union_r.
- assert (m ∪ <[key:=value]> p = <[key:=value]> m ∪ p) as E
    by (by rewrite <- insert_union_r, insert_union_l).
  by destruct (p !! key).
Qed.

(** The loop along any list of entries with distinct keys. *)
Lemma UpdateIn_distinct (order : list (string * Value)) (p : gmap string Value)
  (override : bool) :
NoDup order.*1 ->
ParamsM.UpdateIn order (mkMap p) override
= Ok (mkMap (merged p (list_to_map order) override)).
Proof.
unfold ParamsM.UpdateIn. revert p.
induction order as [|[key value] rest IH]; intros p Hnodup.
- simpl. unfold merged. destruct override.
  + by rewrite (right_id_L ∅ (∪)).
  + by rewrite (left_id_L ∅ (∪)).
- apply NoDup_cons in Hnodup as [Hfresh Hnodup].
  apply (not_elem_of_list_to_map_1 (M := gmap string)) in Hfresh.
  cbn [fold_left fst snd].
  rewrite (step_allocated p override key value).
  rewrite IH by exact Hnodup.
  by rewrite merged_insert.
Qed.

Lemma UpdateIn_allocated (order : list (string * Value)) (p : gmap string Value)
  (other : Params) (override : bool) :
ParamsM.iteration other order ->
ParamsM.UpdateIn order (mkMap p) override
= Ok (mkMap (merged p (entries other) override)).
Proof.
unfold ParamsM.iteration. intros Hperm.
rewrite UpdateIn_distinct.
- rewrite (list_to_map_proper order (map_to_list (entries other))).
  + by rewrite list_to_map_to_list.
  + rewrite Hperm. apply NoDup_fst_map_to_list.
  + exact Hperm.
- rewrite Hperm. apply NoDup_fst_map_to_list.
Qed.

Lemma merged_lookup (p q : gmap string Value) (override : bool) (k : string) :
merged p q override !! k
= match q !! k with
  | None => p !! k
  | Some v =>
      match p !! k with
      | None => Some v
      | Some u => Some (if override then u else v)
      end
  end.
Proof.
unfold merged. destruct override; rewrite lookup_union;
  destruct (p !! k), (q !! k); done.
Qed.

(** C8, as amended: on an allocated receiver [p], and in whatever order the
  loop visits the entries of [q], [Update(q, b)] succeeds and leaves a
  map that reads, at every key [k]: [p]'s value when [q] has no [k];
  [q]'s value when only [q] has [k]; and on a key of both, [p]'s value
  under [b = true], [q]'s under [b = false]. *)
Theorem Update_merges_allocated (p : gmap string Value) (q : Params) (b : bool)
  (order : list (string * Value)) :
ParamsM.iteration q order ->
exists p' : gmap string Value,
  ParamsM.UpdateIn order (mkMap p) b = Ok (mkMap p')
  /\ forall k : string,
       p' !! k = match mapGet q k with
                 | None => p !! k
                 | Some v =>
                     match p !! k with
                     | None => Some v
                     | Some u => Some (if b then u else v)
                     end
                 end.
Proof.
intros Horder. exists (merged p (entries q) b). split.
- by apply UpdateIn_allocated.
- intros k. apply merged_lookup.
Qed.

(** C8 as stated fails on the nil receiver: the first key to add is a write
  into a nil map, whatever the flag and the order. *)
Lemma Update_nil_receiver_panics :
let p : Params := nilMap in
let q : Params := mkMap {[ "a" := VInt 1 ]} in
mapGet p "a" = None /\ mapGet q "a" = Some (VInt 1)
/\ forall (b : bool) (order : list (string * Value)),
     ParamsM.iteration q order ->
     ParamsM.UpdateIn order p b = Panic panic_nil_map
     /\ ~ (exists p', ParamsM.UpdateIn order p b = Ok p'
                      /\ mapGet p' "a" = Some (VInt 1)).
Proof.
simpl. split; [reflexivity|]. split; [reflexivity|].
intros b order Horder. unfold ParamsM.iteration in Horder. simpl in Horder.
rewrite map_to_list_singleton in Horder.
apply Permutation_singleton_r in Horder as ->.
split; [reflexivity|]. intros (p' & H & _). discriminate.
Qed.

End UpdateProps.

(** ** The monad of the embedding *)

Ltac unfold_monad :=
  unfold mbind, M_bind, bind, mret, M_ret, ret, fail, panic, liftO, liftE, modify in *.

Section MonadProps.
Context `{RT : GoRuntime} `{VL : GoVersion}.

Lemma bind_Ok {A B} (m : M A) (f : A -> M B) w a w' :
  m w = (Ok a, w') -> (m ≫= f) w = f a w'.
Proof. intros E. unfold_monad. by rewrite E. Qed.

Lemma bind_Err {A B} (m : M A) (f : A -> M B) w e w' :
  m w = (Err e, w') -> (m ≫= f) w = (Err e, w').
Proof. intros E. unfold_monad. by rewrite E. Qed.

Lemma bind_Panic {A B} (m : M A) (f : A -> M B) w msg w' :
  m w = (Panic msg, w') -> (m ≫= f) w = (Panic msg, w').
Proof. intros E. unfold_monad. by rewrite E. Qed.

Lemma bind_assoc {A B C} (m : M A) (f : A -> M B) (g : B -> M C) w :
  ((m ≫= f) ≫= g) w = (m ≫= (fun a => f a ≫= g)) w.
Proof. unfold_monad. destruct (m w) as [[a|e|msg] w']; reflexivity. Qed.

End MonadProps.

(** ** The version gate *)

Section GateProps.
Context `{RT : GoRuntime} `{VL : GoVersion}.
Variable before : VMSRest -> VastResourceEntry -> string -> string -> option string -> M unit.
Variable after : VMSRest -> VastResourceEntry -> Renderable -> M Renderable.

Local Abbreviation getVersion := (GetVersion before after).
Local Abbreviation check := (checkVastResourceVersionCompat before after).

Lemma GetVersion_cached rest w v :
  sysVersion w = Some v -> getVersion rest w = (Ok v, w).
Proof. intros E. unfold GetVersion. by rewrite E. Qed.

(** A version that [GetVersion] returns is in the cache from then on. *)
Lemma GetVersion_caches rest w v w' :
  getVersion rest w = (Ok v, w') -> sysVersion w' = Some v.
Proof.
  unfold GetVersion. destruct (sysVersion w) as [c|] eqn:Hc.
  - intros [= <- <-]. exact Hc.
  - unfold_monad.
    destruct (listRequest _ _ _ _ _) as [[[|first rest']|e|msg] w1]; try discriminate.
    destruct (index first "sys_version"); try discriminate.
    destruct (sanitizeVersion s) as [[truncated flag]|e|msg]; try discriminate.
    destruct (NewVersion truncated) as [e|cv]; try discriminate.
    intros [= <- <-]. reflexivity.
Qed.

(** [GetVersion] is the source's [v.List] on the [Version] resource. *)
Lemma GetVersion_calls_List rest w :
  sysVersion w = None ->
  getVersion rest w
  = (List before after rest Versions (mkMap {[ "status" := VString "success" ]})
     ≫= (fun result =>
           match result with
           | [] => panic panic_index
           | first :: _ =>
               match index first "sys_version" with
               | VString s =>
                   '(truncatedVersion, _) ← liftO (sanitizeVersion s);
                   clusterVersion ← liftE (NewVersion truncatedVersion);
                   _ ← modify (set_sysVersion (Some (Core clusterVersion)));
                   mret (Core clusterVersion)
               | _ => panic panic_conversion
               end
           end)) w.
Proof. intros E. unfold GetVersion, List. rewrite E. reflexivity. Qed.

Lemma gate_no_minimum rest e w :
  availableFromVersion e = None -> check rest e w = (Ok tt, w).
Proof. intros E. unfold checkVastResourceVersionCompat. by rewrite E. Qed.

Lemma gate_with_version rest e w minimum v w' :
  availableFromVersion e = Some minimum ->
  getVersion rest w = (Ok v, w') ->
  check rest e w
  = (if Compare v minimum =? -1 then Err (versionIncompatible e v minimum) else Ok tt, w').
Proof.
  intros Hmin Hv.
  unfold checkVastResourceVersionCompat, CompareWith. rewrite Hmin.
  pose proof (GetVersion_cached rest w' v (GetVersion_caches _ _ _ _ Hv)) as Hagain.
  unfold_monad. unfold ignoreErr. rewrite Hv, Hagain.
  destruct (Compare v minimum =? -1); reflexivity.
Qed.

(** A failed version lookup is what the gate returns. *)
Lemma gate_lookup_error rest e w minimum err w' :
  availableFromVersion e = Some minimum ->
  getVersion rest w = (Err err, w') ->
  check rest e w = (Err err, w').
Proof.
  intros Hmin Hv.
  unfold checkVastResourceVersionCompat, CompareWith. rewrite Hmin.
  unfold_monad. by rewrite Hv.
Qed.

(** Every entry operation starts with the gate: when the gate fails, its
    error and its world are the operation's. *)
Lemma rejected_operations rest e w err w' :
  check rest e w = (Err err, w') ->
  isNotFoundErr err = false ->
  (forall params, List before after rest e params w = (Err err, w'))
  /\ (forall params, Get before after rest e params w = (Err err, w'))
  /\ (forall id, GetById before after rest e id w = (Err err, w'))
  /\ (forall body, Create before after rest e body w = (Err err, w'))
  /\ (forall id body, Update before after rest e id body w = (Err err, w'))
  /\ (forall id, DeleteById before after rest e id w = (Err err, w'))
  /\ (forall params, Delete before after rest e params w = (Err err, w'))
  /\ (forall name body, Ensure before after rest e name body w = (Err err, w')).
Proof.
  intros Hgate Hnf.
  assert (forall params, Get before after rest e params w = (Err err, w')) as HGet.
  { intros. unfold Get. by apply bind_Err. }
  repeat split; intros.
  - unfold List. by apply bind_Err.
  - apply HGet.
  - unfold GetById. by apply bind_Err.
  - unfold Create. by apply bind_Err.
  - unfold Update. by apply bind_Err.
  - unfold DeleteById. by apply bind_Err.
  - unfold Delete. by rewrite HGet, Hnf.
  - unfold Ensure. by rewrite HGet, Hnf.
Qed.

(** C4. An entry without a minimum version passes the gate in the world it
    started in: nothing is looked up. For an entry with minimum version
    [minimum], once the cluster version [v] is known (from the cache or
    from a lookup that ends in world [w']), the gate rejects with the
    version-incompatible error, which names the resource type, [v] and
    [minimum], exactly when [Compare v minimum = -1]; otherwise it
    passes. A rejected operation ends in [w'], the world the gate left:
    no request is made for the resource. *)
Theorem version_gate (rest : VMSRest) (e : VastResourceEntry) (w : World) :
  (availableFromVersion e = None -> check rest e w = (Ok tt, w))
  /\ (forall minimum v w',
        availableFromVersion e = Some minimum ->
        getVersion rest w = (Ok v, w') ->
        (check rest e w = (Err (versionIncompatible e v minimum), w')
         <-> Compare v minimum = -1)
        /\ (Compare v minimum <> -1 -> check rest e w = (Ok tt, w'))
        /\ (Compare v minimum = -1 ->
              (forall params,
                  List before after rest e params w
                  = (Err (versionIncompatible e v minimum), w'))
              /\ (forall params,
                    Get before after rest e params w
                    = (Err (versionIncompatible e v minimum), w'))
              /\ (forall id,
                    GetById before after rest e id w
                    = (Err (versionIncompatible e v minimum), w'))
              /\ (forall body,
                    Create before after rest e body w
                    = (Err (versionIncompatible e v minimum), w'))
              /\ (forall id body,
                    Update before after rest e id body w
                    = (Err (versionIncompatible e v minimum), w'))
              /\ (forall id,
                    DeleteById before after rest e id w
                    = (Err (versionIncompatible e v minimum), w'))
              /\ (forall params,
                    Delete before after rest e params w
                    = (Err (versionIncompatible e v minimum), w'))
              /\ (forall name body,
                    Ensure before after rest e name body w
                    = (Err (versionIncompatible e v minimum), w')))).
Proof.
  split; [apply gate_no_minimum|].
  intros minimum v w' Hmin Hv.
  pose proof (gate_with_version rest e w minimum v w' Hmin Hv) as Hgate.
  destruct (Z.eqb_spec (Compare v minimum) (-1)) as [Hlt|Hge].
  - split; [split; [intros _; exact Hlt | intros _; exact Hgate]|].
    split; [intros Hne; contradiction|].
    intros _. apply rejected_operations; [exact Hgate | reflexivity].
  - split; [split; [rewrite Hgate; discriminate | contradiction]|].
    split; [intros _; exact Hgate | contradiction].
Qed.

(** With the version already in the cache the rejection leaves the world
    untouched. *)
Corollary gate_rejects_from_cache rest e w minimum v params :
  availableFromVersion e = Some minimum ->
  sysVersion w = Some v ->
  Compare v minimum = -1 ->
  List before after rest e params w = (Err (versionIncompatible e v minimum), w).
Proof.
  intros Hmin Hc Hlt.
  pose proof (gate_with_version rest e w minimum v w Hmin
                (GetVersion_cached rest w v Hc)) as Hgate.
  rewrite Hlt in Hgate. simpl in Hgate.
  by apply (rejected_operations rest e w _ w Hgate).
Qed.

End GateProps.

(** ** Identifier conversion *)

Section ToIntProps.
Context `{RT : GoRuntime}.

Lemma digits2_pos_bound (m : positive) : Z.pos m < 2 ^ Z.pos (digits2_pos m).
Proof.
  induction m as [m IH|m IH|]; simpl digits2_pos.
  - rewrite Pos2Z.inj_succ, Z.pow_succ_r by lia. lia.
  - rewrite Pos2Z.inj_succ, Z.pow_succ_r by lia. lia.
  - reflexivity.
Qed.

Lemma float64_mantissa neg m e :
  isFloat64 (S754_finite neg m e) = true -> Z.pos m < 2 ^ 53.
Proof.
  unfold isFloat64, valid_binary, bounded, canonical_mantissa, fexp.
  intros H. apply andb_prop in H as [H _]. apply Z.eqb_eq in H.
  pose proof (digits2_pos_bound m) as B.
  assert (Z.pos (digits2_pos m) <= 53) as D by lia.
  eapply Z.lt_le_trans; [exact B|].
  apply Z.pow_le_mono_r; lia.
Qed.

(** The fraction of a [float64] is dropped: the magnitude is rounded down,
    the sign is kept, and no [float64] with a fraction is out of the range
    of [int64]. *)
Lemma toInt_truncates neg m e :
  isFloat64 (S754_finite neg m e) = true ->
  hasFraction (S754_finite neg m e) = true ->
  toInt (VFloat64 (S754_finite neg m e))
  = Ok ((if neg then -1 else 1) * (Z.pos m / 2 ^ (- e)))
  /\ (Z.pos m / 2 ^ (- e)) * 2 ^ (- e) < Z.pos m < (Z.pos m / 2 ^ (- e) + 1) * 2 ^ (- e).
Proof.
  intros Hf Hfrac.
  pose proof (float64_mantissa neg m e Hf) as Hm.
  unfold hasFraction in Hfrac. apply andb_prop in Hfrac as [He Hrem].
  apply Z.ltb_lt in He. apply negb_true_iff, Z.eqb_neq in Hrem.
  assert (0 < 2 ^ (- e)) as Hd by (apply Z.pow_pos_nonneg; lia).
  pose proof (Z.div_mod (Z.pos m) (2 ^ (- e)) ltac:(lia)) as Hdm.
  pose proof (Z.mod_pos_bound (Z.pos m) (2 ^ (- e)) Hd) as Hmod.
  assert (Z.pos m mod 2 ^ (- e) <> 0) as Hnz.
  { intros Hz. apply Hrem. destruct neg; simpl signed.
    - change (Z.neg m) with (- Z.pos m). rewrite Z.rem_opp_l by lia.
      rewrite Z.rem_mod_nonneg by lia. lia.
    - rewrite Z.rem_mod_nonneg by lia. exact Hz. }
  assert (0 <= Z.pos m / 2 ^ (- e) < 2 ^ 53) as Hq.
  { split; [apply Z.div_pos; lia|].
    apply Z.div_lt_upper_bound; [lia|]. nia. }
  split; [|nia].
  unfold toInt, int64_of_float64.
  replace (0 <=? e) with false by (symmetry; apply Z.leb_gt; lia).
  assert (Z.quot (signed neg m) (2 ^ (- e))
          = (if neg then -1 else 1) * (Z.pos m / 2 ^ (- e))) as ->.
  { destruct neg; simpl signed.
    - change (Z.neg m) with (- Z.pos m). rewrite Z.quot_opp_l by lia.
      rewrite Z.quot_div_nonneg by lia. lia.
    - rewrite Z.quot_div_nonneg by lia. lia. }
  assert (2 ^ 53 < 2 ^ 63) as Hp by (apply Z.pow_lt_mono_r; lia).
  unfold int64_min, int64_max.
  destruct neg.
  - replace (- 2 ^ 63 <=? -1 * (Z.pos m / 2 ^ (- e))) with true
      by (symmetry; apply Z.leb_le; lia).
    replace (-1 * (Z.pos m / 2 ^ (- e)) <=? 2 ^ 63 - 1) with true
      by (symmetry; apply Z.leb_le; lia).
    reflexivity.
  - replace (- 2 ^ 63 <=? 1 * (Z.pos m / 2 ^ (- e))) with true
      by (symmetry; apply Z.leb_le; lia).
    replace (1 * (Z.pos m / 2 ^ (- e)) <=? 2 ^ 63 - 1) with true
      by (symmetry; apply Z.leb_le; lia).
    reflexivity.
Qed.

(** What [toInt] accepts and what it rejects. *)
Lemma toInt_cases (v : Value) :
  toInt v = match v with
            | VInt64 n | VInt n => Ok n
            | VFloat64 f => Ok (int64_of_float64 int64_other f)
            | _ => Err (unexpectedIdType v)
            end.
Proof. destruct v; reflexivity. Qed.

End ToIntProps.

(** ** [Get] and [Delete] *)

Section CrudProps.
Context `{RT : GoRuntime} `{VL : GoVersion}.
Variable before : VMSRest -> VastResourceEntry -> string -> string -> option string -> M unit.
Variable after : VMSRest -> VastResourceEntry -> Renderable -> M Renderable.

Local Abbreviation eList := (List before after).
Local Abbreviation eGet := (Get before after).
Local Abbreviation eDelete := (Delete before after).
Local Abbreviation eDeleteById := (DeleteById before after).

(** [Get] is [List] followed by the choice on the number of matches. *)
Lemma Get_after_List rest e params w :
  eGet rest e params w
  = (eList rest e params
     ≫= (fun result =>
           match result with
           | [] => fail (NotFoundError (resourcePath e) (ToQuery params))
           | [one] => mret one
           | _ => fail (ambiguousMatch e params)
           end)) w.
Proof. unfold Get, List. symmetry. apply bind_assoc. Qed.

(** C5. When the [List] underneath a [Get] succeeds with [result]: no
    element gives the not-found error, which carries the resource path and
    the encoded query; one element gives that record; two or more give the
    ambiguous-match error, which names the path and the query and is not a
    not-found error. *)
Theorem Get_by_number_of_matches (rest : VMSRest) (e : VastResourceEntry)
    (params : Params) (w w' : World) (result : RecordSet) :
  eList rest e params w = (Ok result, w') ->
  (result = [] ->
     eGet rest e params w
     = (Err (NotFoundError (resourcePath e) (ToQuery params)), w'))
  /\ (forall one, result = [one] -> eGet rest e params w = (Ok one, w'))
  /\ ((2 <= length result)%nat ->
        eGet rest e params w = (Err (ambiguousMatch e params), w')
        /\ isNotFoundErr (ambiguousMatch e params) = false
        /\ isNotFoundErr (NotFoundError (resourcePath e) (ToQuery params)) = true).
Proof.
  intros HList. rewrite Get_after_List, (bind_Ok _ _ _ _ _ HList).
  split; [intros ->; reflexivity|].
  split; [intros one ->; reflexivity|].
  intros Hlen. destruct result as [|r1 [|r2 more]]; simpl in Hlen; try lia.
  repeat split.
Qed.

Lemma Delete_cases rest e params w :
  eDelete rest e params w
  = match eGet rest e params w with
    | (Err err, w') => if isNotFoundErr err then (Ok (mkMap ∅), w') else (Err err, w')
    | (Panic msg, w') => (Panic msg, w')
    | (Ok result, w') =>
        match mapGet result "id" with
        | None => (Err missingId, w')
        | Some idVal =>
            match idVal with
            | VInt64 n | VInt n => eDeleteById rest e n w'
            | VFloat64 f => eDeleteById rest e (int64_of_float64 int64_other f) w'
            | _ => (Err (unexpectedIdType idVal), w')
            end
        end
    end.
Proof.
  unfold Delete. destruct (eGet rest e params w) as [[result|err|msg] w']; try reflexivity.
  destruct (mapGet result "id") as [[]|]; reflexivity.
Qed.

(** C6. [Delete] looks the resource up with [Get]. A not-found error makes
    it return an empty record and no error, in the world [Get] left; any
    other error of [Get] is returned as it is. On a match, an [id] that
    is an [int64], an [int] or a [float64] is handed to [DeleteById]
    (the float converted to [int64]); an [id] of any other type, or no
    [id], is an error and nothing more is done. *)
Theorem Delete_by_lookup (rest : VMSRest) (e : VastResourceEntry)
    (params : Params) (w : World) :
  (forall err w',
      eGet rest e params w = (Err err, w') ->
      (isNotFoundErr err = true -> eDelete rest e params w = (Ok (mkMap ∅), w'))
      /\ (isNotFoundErr err = false -> eDelete rest e params w = (Err err, w')))
  /\ (forall result w',
        eGet rest e params w = (Ok result, w') ->
        (mapGet result "id" = None -> eDelete rest e params w = (Err missingId, w'))
        /\ (forall idVal,
              mapGet result "id" = Some idVal ->
              match idVal with
              | VInt64 n | VInt n =>
                  eDelete rest e params w = eDeleteById rest e n w'
              | VFloat64 f =>
                  eDelete rest e params w
                  = eDeleteById rest e (int64_of_float64 int64_other f) w'
              | _ => eDelete rest e params w = (Err (unexpectedIdType idVal), w')
              end)).
Proof.
  split.
  - intros err w' HGet. rewrite Delete_cases, HGet.
    split; intros ->; reflexivity.
  - intros result w' HGet. rewrite Delete_cases, HGet. split.
    + intros ->. reflexivity.
    + intros idVal ->. destruct idVal; reflexivity.
Qed.

(** C10. When the record [Get] matched has an [id] that is a [float64]
    with a fraction, [toInt] does not reject it: it yields the integer
    part, sign kept, which differs from the [id], and [Delete] calls
    [DeleteById] with that integer. *)
Theorem Delete_truncates_fractional_id (rest : VMSRest) (e : VastResourceEntry)
    (params : Params) (w w' : World) (result : Record)
    (neg : bool) (m : positive) (ex : Z) :
  eGet rest e params w = (Ok result, w') ->
  mapGet result "id" = Some (VFloat64 (S754_finite neg m ex)) ->
  isFloat64 (S754_finite neg m ex) = true ->
  hasFraction (S754_finite neg m ex) = true ->
  let whole := Z.pos m / 2 ^ (- ex) in
  let id := (if neg then -1 else 1) * whole in
  toInt (VFloat64 (S754_finite neg m ex)) = Ok id
  /\ whole * 2 ^ (- ex) < Z.pos m < (whole + 1) * 2 ^ (- ex)
  /\ eDelete rest e params w = eDeleteById rest e id w'.
Proof.
  intros HGet Hid Hf Hfrac whole id.
  destruct (toInt_truncates neg m ex Hf Hfrac) as [Hto Hbounds].
  split; [exact Hto|]. split; [exact Hbounds|].
  unfold Delete. rewrite HGet, Hid, Hto. reflexivity.
Qed.

End CrudProps.

(** ** The token authenticator *)

Section AuthProps.
Context `{RT : GoRuntime} `{VL : GoVersion}.
Local Open Scope list_scope.

Lemma timeSub_expired (t u : Z) :
  (TokenRefreshTime <=? timeSub t u) = (TokenRefreshTime <=? t - u).
Proof.
  unfold timeSub, TokenRefreshTime, int64_min, int64_max.
  destruct (Z.leb_spec (60 * 1000000000 * 10) (t - u));
    [apply Z.leb_le | apply Z.leb_gt]; lia.
Qed.

(** The tail of [Authorize] sends nothing; it stores a token stamped with
    the current time, or leaves the authenticator as it is. *)
Lemma acceptToken_effect resp w r w' :
  acceptToken resp w = (r, w') ->
  wire w' = wire w /\ now w' = now w
  /\ initialized (jwt w') = initialized (jwt w)
  /\ match r with
     | Ok _ => exists t, Token (jwt w') = Some t /\ CreatedAt t = now w'
     | _ => w' = w
     end.
Proof.
  unfold acceptToken, parseToken, timeNow. unfold_monad.
  destruct (validateResponse resp) as [e|ok]; [intros [= <- <-]; auto|].
  destruct (jsonUnmarshalToken (Body ok)) as [e|[access refresh]];
    [intros [= <- <-]; auto|].
  intros [= <- <-]. simpl. repeat split. eexists. split; reflexivity.
Qed.

Lemma clientPost_wire url contentType body w r w' :
  clientPost url contentType body w = (r, w') ->
  wire w' = wire w ++ [{| Method := "POST"; URL := url;
                          Header := [("Content-Type", contentType)];
                          Payload := body |}]
  /\ jwt w' = jwt w.
Proof.
  unfold clientPost, roundTrip.
  destruct (remote w (wire w) _) as [took [err|resp]];
    intros [= <- <-]; split; reflexivity.
Qed.

Lemma Authorize_first config w :
  initialized (jwt w) = false ->
  exists r w',
    Authorize config w = (r, w')
    /\ wire w' = wire w ++ [acquireRequest config]
    /\ initialized (jwt w') = true
    /\ match r with
       | Ok _ => exists t, Token (jwt w') = Some t /\ CreatedAt t = now w'
       | _ => Token (jwt w') = Token (jwt w)
       end.
Proof.
  intros Hinit. unfold Authorize, acquireToken. rewrite Hinit.
  destruct (clientPost _ _ _ w) as [[resp err] w1] eqn:Hpost.
  apply clientPost_wire in Hpost as [Hwire Hjwt].
  destruct (acceptToken resp (set_jwt (set_initialized true (jwt w1)) w1))
    as [r w2] eqn:Hacc.
  exists r, w2. split; [reflexivity|].
  apply acceptToken_effect in Hacc as (Hw & _ & Hi & Hr).
  split; [rewrite Hw; exact Hwire|]. split; [rewrite Hi; reflexivity|].
  destruct r as [[]|e|msg]; [exact Hr| |]; rewrite Hr; simpl; by rewrite Hjwt.
Qed.

Lemma Authorize_fresh config w t :
  initialized (jwt w) = true -> Token (jwt w) = Some t ->
  now w - CreatedAt t < TokenRefreshTime ->
  Authorize config w = (Ok tt, w).
Proof.
  intros Hinit Htok Hfresh. unfold Authorize. rewrite Hinit, Htok, timeSub_expired.
  replace (TokenRefreshTime <=? now w - CreatedAt t) with false
    by (symmetry; apply Z.leb_gt; lia).
  reflexivity.
Qed.

Lemma Authorize_stale config w t :
  initialized (jwt w) = true -> Token (jwt w) = Some t ->
  TokenRefreshTime <= now w - CreatedAt t ->
  exists r w',
    Authorize config w = (r, w')
    /\ wire w' = wire w ++ [refreshRequest config t]
    /\ (r = Ok tt -> exists t', Token (jwt w') = Some t' /\ CreatedAt t' = now w').
Proof.
  intros Hinit Htok Hstale.
  unfold Authorize, refreshToken. rewrite Hinit, Htok, timeSub_expired.
  replace (TokenRefreshTime <=? now w - CreatedAt t) with true
    by (symmetry; apply Z.leb_le; lia).
  simpl negb. cbv iota.
  destruct (clientPost _ _ _ w) as [[resp err] w1] eqn:Hpost.
  apply clientPost_wire in Hpost as [Hwire Hjwt].
  destruct (acceptToken resp w1) as [r w2] eqn:Hacc.
  exists r, w2. split; [reflexivity|].
  apply acceptToken_effect in Hacc as (Hw & _ & _ & Hr).
  split; [rewrite Hw; exact Hwire|].
  intros ->. exact Hr.
Qed.

(** C7. On an authenticator that was never used, [Authorize] sends exactly
    one request, the acquisition exchange, and when it succeeds it has
    stored a token created at the time it ends. On an initialized
    authenticator holding token [t]: while less than [TokenRefreshTime]
    (ten minutes) has passed since [t] was created, [Authorize] succeeds
    in an unchanged world, so nothing is sent and the token stays; once
    ten minutes or more have passed it sends exactly one request, the
    refresh exchange, and on success holds a token created at the time it
    ends. *)
Theorem Authorize_exchanges (config : Config.VMSConfig) (w : World) :
  (initialized (jwt w) = false ->
     exists r w',
       Authorize config w = (r, w')
       /\ wire w' = wire w ++ [acquireRequest config]
       /\ (r = Ok tt ->
             initialized (jwt w') = true
             /\ exists t, Token (jwt w') = Some t /\ CreatedAt t = now w'))
  /\ (forall t,
        initialized (jwt w) = true -> Token (jwt w) = Some t ->
        (now w - CreatedAt t < TokenRefreshTime ->
           Authorize config w = (Ok tt, w))
        /\ (TokenRefreshTime <= now w - CreatedAt t ->
              exists r w',
                Authorize config w = (r, w')
                /\ wire w' = wire w ++ [refreshRequest config t]
                /\ (r = Ok tt ->
                      exists t', Token (jwt w') = Some t'
                                 /\ CreatedAt t' = now w'))).
Proof.
  split.
  - intros Hinit.
    destruct (Authorize_first config w Hinit) as (r & w' & HA & Hwire & Hi & Hr).
    exists r, w'. split; [exact HA|]. split; [exact Hwire|].
    intros ->. split; [exact Hi | exact Hr].
  - intros t Hinit Htok. split.
    + by apply Authorize_fresh.
    + by apply Authorize_stale.
Qed.

(** A successful [Authorize] leaves an initialized authenticator that holds
    a token, whatever it started from. *)
Lemma Authorize_success_ready config w w' :
  Authorize config w = (Ok tt, w') ->
  initialized (jwt w') = true /\ exists t, Token (jwt w') = Some t.
Proof.
  intros HA. destruct (initialized (jwt w)) eqn:Hinit.
  - destruct (Token (jwt w)) as [t|] eqn:Htok.
    + destruct (Z.lt_ge_cases (now w - CreatedAt t) TokenRefreshTime) as [Hf|Hs].
      * rewrite (Authorize_fresh config w t Hinit Htok Hf) in HA.
        injection HA as <-. eauto.
      * destruct (Authorize_stale config w t Hinit Htok Hs)
          as (r & w1 & HA' & _ & Hr).
        rewrite HA in HA'. injection HA' as <- <-.
        destruct (Hr eq_refl) as (t' & Ht' & _). split; [|eauto].
        revert HA. unfold Authorize, refreshToken. rewrite Hinit, Htok.
        destruct (negb _); [intros [= <-]; exact Hinit|].
        destruct (clientPost _ _ _ w) as [[resp err] w1] eqn:Hpost.
        apply clientPost_wire in Hpost as [_ Hjwt].
        intros Hacc. apply acceptToken_effect in Hacc as (_ & _ & Hi & _).
        by rewrite Hi, Hjwt.
    + unfold Authorize in HA. rewrite Hinit, Htok in HA. discriminate.
  - destruct (Authorize_first config w Hinit) as (r & w1 & HA' & _ & Hi & Hr).
    rewrite HA in HA'. injection HA' as <- <-.
    destruct Hr as (t & Ht & _). eauto.
Qed.

(** After an acquisition that failed, the authenticator is marked
    initialized and holds no token: the next [Authorize] dereferences the
    nil token. *)
Lemma Authorize_after_failure config w e w' :
  initialized (jwt w) = false -> Token (jwt w) = None ->
  Authorize config w = (Err e, w') ->
  Authorize config w' = (Panic panic_nil_deref, w').
Proof.
  intros Hinit Htok HA.
  destruct (Authorize_first config w Hinit) as (r & w1 & HA' & _ & Hi & Hr).
  rewrite HA in HA'. injection HA' as <- <-.
  unfold Authorize. rewrite Hi, Hr, Htok. reflexivity.
Qed.

End AuthProps.

(** ** The dispatcher and its after-request interceptor *)

Section RequestProps.
Context `{RT : GoRuntime} `{VL : GoVersion}.

Lemma assertT_same (T : RecordUnion) (x : carrier T) :
  assertT T (toRenderable T x) = Ok x.
Proof. destruct T; reflexivity. Qed.

Lemma assertT_cases (T : RecordUnion) (v : Renderable) :
  (shapeOf v <> Some T -> assertT T v = Panic panic_conversion)
  /\ (shapeOf v = Some T -> exists x, assertT T v = Ok x /\ toRenderable T x = v).
Proof.
  split.
  - destruct T, v; simpl; intros H; try reflexivity; contradiction.
  - destruct T, v; simpl; intros H; try discriminate; eexists; split; reflexivity.
Qed.

(** C9. Once the decoded result has reached the after-request interceptor
    and the interceptor has returned [v] without an error: if [v] does not
    hold the shape [T] of the call, [request] panics at its type
    assertion; if it does, [request] returns what [v] holds. *)
Theorem request_asserts_hook_result (T : RecordUnion)
    (r : InterceptableVastResource) (verb path apiVer : string)
    (params body : Params) (w w1 w2 : World) (result : carrier T)
    (v : Renderable) :
  requestDecoded T r verb path apiVer params body w = (Ok result, w1) ->
  doAfterRequest r (toRenderable T result) w1 = (Ok v, w2) ->
  (shapeOf v <> Some T ->
     request T r verb path apiVer params body w = (Panic panic_conversion, w2))
  /\ (shapeOf v = Some T ->
        exists x, request T r verb path apiVer params body w = (Ok x, w2)
                  /\ toRenderable T x = v).
Proof.
  intros Hdecoded Hhook. unfold request.
  rewrite (bind_Ok _ _ _ _ _ Hdecoded), (bind_Ok _ _ _ _ _ Hhook).
  destruct (assertT_cases T v) as [Hbad Hgood]. unfold liftO. split.
  - intros H. by rewrite (Hbad H).
  - intros H. destruct (Hgood H) as (x & -> & Hx). by exists x.
Qed.

(** An interceptor that returns what it was given changes nothing. *)
Lemma request_identity_hook T r verb path apiVer params body w result w1 :
  requestDecoded T r verb path apiVer params body w = (Ok result, w1) ->
  doAfterRequest r (toRenderable T result) w1 = (Ok (toRenderable T result), w1) ->
  request T r verb path apiVer params body w = (Ok result, w1).
Proof.
  intros Hdecoded Hhook. unfold request.
  rewrite (bind_Ok _ _ _ _ _ Hdecoded), (bind_Ok _ _ _ _ _ Hhook).
  unfold liftO. by rewrite assertT_same.
Qed.

End RequestProps.

(** ** URL construction *)

Section UrlProps.
Context `{RT : GoRuntime} `{VL : GoVersion}.
Variable before : VMSRest -> VastResourceEntry -> string -> string -> option string -> M unit.
Variable after : VMSRest -> VastResourceEntry -> Renderable -> M Renderable.

(** No entry made by [newResource] has an API version of its own. *)
Lemma newResource_apiVersion T resourcePath availableFromVersion :
  apiVersion (newResource T resourcePath availableFromVersion) = "".
Proof. reflexivity. Qed.

(** With the empty version tag the configured API version is not read. *)
Lemma buildUrl_empty_tag (s s' : RESTSession.t) path query :
  Config.Host (RESTSession.GetConfig s) = Config.Host (RESTSession.GetConfig s') ->
  Config.Port (RESTSession.GetConfig s) = Config.Port (RESTSession.GetConfig s') ->
  buildUrl s path query "" = buildUrl s' path query "".
Proof. intros HH HP. unfold buildUrl. simpl. by rewrite HH, HP. Qed.

(** A tag that is not empty is replaced by the configured version. *)
Lemma buildUrl_other_tag (s : RESTSession.t) path query apiVer :
  apiVer <> "" ->
  buildUrl s path query apiVer
  = inr (GoURL.URLString "https"
           (Config.Host (RESTSession.GetConfig s) ++ ":"
            ++ GoStrings.Itoa (Config.Port (RESTSession.GetConfig s)))
           (GoURL.JoinPath "api"
              [Config.ApiVersion (RESTSession.GetConfig s); GoStrings.Trim path "/"])
           query).
Proof.
  intros Hne. unfold buildUrl.
  destruct (String.eqb_spec apiVer ""); [contradiction|reflexivity].
Qed.

End UrlProps.

(** ** Cluster version lookup *)

Section VersionProps.
Context `{RT : GoRuntime} `{VL : GoVersion}.
Variable before : VMSRest -> VastResourceEntry -> string -> string -> option string -> M unit.
Variable after : VMSRest -> VastResourceEntry -> Renderable -> M Renderable.

Lemma sanitizeVersion_short version :
  (length (GoStrings.Split version ".") < 3)%nat ->
  sanitizeVersion version = Panic panic_slice.
Proof.
  intros H. unfold sanitizeVersion.
  replace (Z.of_nat (length (GoStrings.Split version ".")) <? 3) with true
    by (symmetry; apply Z.ltb_lt; lia).
  reflexivity.
Qed.

Lemma GetVersion_no_record rest w w' :
  sysVersion w = None ->
  listRequest before after rest Versions
    (mkMap {[ "status" := VString "success" ]}) w = (Ok [], w') ->
  GetVersion before after rest w = (Panic panic_index, w').
Proof.
  intros Hc HL. unfold GetVersion. rewrite Hc.
  by rewrite (bind_Ok _ _ _ _ _ HL).
Qed.

Lemma GetVersion_not_a_string rest w w' first others :
  sysVersion w = None ->
  listRequest before after rest Versions
    (mkMap {[ "status" := VString "success" ]}) w = (Ok (first :: others), w') ->
  (forall s, index first "sys_version" <> VString s) ->
  GetVersion before after rest w = (Panic panic_conversion, w').
Proof.
  intros Hc HL Hns. unfold GetVersion. rewrite Hc.
  rewrite (bind_Ok _ _ _ _ _ HL).
  destruct (index first "sys_version") eqn:E; try reflexivity.
  by destruct (Hns s).
Qed.

End VersionProps.

(** ** The task poller *)

Section WaitTaskProps.
Context `{RT : GoRuntime} `{VL : GoVersion}.
Variable before : VMSRest -> VastResourceEntry -> string -> string -> option string -> M unit.
Variable after : VMSRest -> VastResourceEntry -> Renderable -> M Renderable.

(** Whatever an attempt reports, the only error the loop ends with is the
    timeout. *)
Lemma waitLoop_errors rest t taskId retries interval backoffRate w e w' :
  waitLoop before after rest t taskId retries interval backoffRate w = (Err e, w') ->
  e = taskTimeout.
Proof.
  revert interval w. induction retries as [|n IH]; intros interval w; simpl.
  - unfold fail. by intros [= <- _].
  - destruct (isTaskComplete before after rest t taskId w) as [[task|err|msg] w1];
      try discriminate.
    apply IH.
Qed.

Lemma WaitTask_errors rest t taskId w e w' :
  WaitTask before after rest t taskId w = (Err e, w') -> e = taskTimeout.
Proof. apply waitLoop_errors. Qed.

(** An attempt that fails, for whatever reason, is followed by a sleep and
    the next attempt. *)
Lemma waitLoop_retries rest t taskId n interval backoffRate w err w1 :
  isTaskComplete before after rest t taskId w = (Err err, w1) ->
  waitLoop before after rest t taskId (S n) interval backoffRate w
  = waitLoop before after rest t taskId n (interval * backoffRate) backoffRate
      (set_now (now w1 + Z.max 0 interval) w1).
Proof. intros H. simpl. by rewrite H. Qed.

(** An attempt that sees the task completed ends the wait. *)
Lemma WaitTask_completed rest t taskId w task w1 :
  isTaskComplete before after rest t taskId w = (Ok task, w1) ->
  WaitTask before after rest t taskId w = (Ok task, w1).
Proof. intros H. unfold WaitTask. simpl. by rewrite H. Qed.

End WaitTaskProps.

(** * The engine at work in the sample environment *)

Section Examples.
Import Sample.
Local Open Scope list_scope.

Local Abbreviation eList := (List configBeforeRequest configAfterRequest).
Local Abbreviation eGet := (Get configBeforeRequest configAfterRequest).
Local Abbreviation eGetById := (GetById configBeforeRequest configAfterRequest).
Local Abbreviation eDelete := (Delete configBeforeRequest configAfterRequest).
Local Abbreviation eDeleteById := (DeleteById configBeforeRequest configAfterRequest).
Local Abbreviation eCreate := (Create configBeforeRequest configAfterRequest).
Local Abbreviation eUpdate := (Update configBeforeRequest configAfterRequest).
Local Abbreviation eCheck :=
  (checkVastResourceVersionCompat configBeforeRequest configAfterRequest).
Local Abbreviation eGetVersion := (GetVersion configBeforeRequest configAfterRequest).
Local Abbreviation eWaitTask := (WaitTask configBeforeRequest configAfterRequest).
Local Abbreviation eIsTaskComplete :=
  (isTaskComplete configBeforeRequest configAfterRequest).

Local Abbreviation tokenCall := ("POST", "https://10.27.40.1:443/api/token/").

(** C1. The client is configured with API version [v5]; [Views] and
    [Quotas] are entries as [NewVMSRest] makes them. Each of the seven
    operations goes to [api/views] or [api/quotas], with the identifier
    after it where there is one: the configured version is not in the
    URL. A caller of [buildUrl] who names a version ([v1]) gets the
    configured one instead. *)
Theorem entry_urls_lack_the_configured_version :
  let w := booted (appliance versionsBody) in
  let base := "https://10.27.40.1:443/api/" in
  Config.ApiVersion sampleConfig = "v5"
  /\ apiVersion Views = ""
  /\ buildUrl (restSession sampleRest) (resourcePath Views) "" (apiVersion Views)
     = inr (base ++ "views")%string
  /\ (eList sampleRest Views nilMap w).1 = Ok []
  /\ traffic (eList sampleRest Views nilMap w).2
     = [tokenCall; ("GET", base ++ "views")%string]
  /\ traffic (eGet sampleRest Views nilMap w).2
     = [tokenCall; ("GET", base ++ "views")%string]
  /\ traffic (eGetById sampleRest Views 7 w).2
     = [tokenCall; ("GET", base ++ "views/7")%string]
  /\ traffic (eCreate sampleRest Views (mkMap ∅) w).2
     = [tokenCall; ("POST", base ++ "views")%string]
  /\ traffic (eUpdate sampleRest Views 7 (mkMap ∅) w).2
     = [tokenCall; ("PATCH", base ++ "views/7")%string]
  /\ traffic (eDeleteById sampleRest Views 7 w).2
     = [tokenCall; ("DELETE", base ++ "views/7")%string]
  /\ traffic (eDelete sampleRest Quotas nilMap w).2
     = [tokenCall; ("GET", base ++ "quotas")%string;
        ("DELETE", base ++ "quotas/7")%string]
  /\ buildUrl (restSession sampleRest) "views" "" "v1"
     = inr (base ++ "v5/views")%string.
Proof. vm_compute. repeat split. Qed.

(** C2. Task 7 is in state [FAILED], its last message is [boom]. One
    attempt reports exactly that failure; [WaitTask] nevertheless makes
    all thirty attempts, half a second apart, and ends with the timeout
    error. *)
Theorem WaitTask_polls_a_failed_task_to_the_end :
  let w := booted (appliance versionsBody) in
  (eIsTaskComplete sampleRest VTasks 7 w).1
  = Err (Errorf "task %s failed with ID %s: %s" [ArgS "map"; ArgD 7; ArgS "boom"])
  /\ (eWaitTask sampleRest VTasks 7 w).1 = Err taskTimeout
  /\ traffic (eWaitTask sampleRest VTasks 7 w).2
     = tokenCall :: replicate 30 ("GET", "https://10.27.40.1:443/api/vtasks/7")
  /\ now (eWaitTask sampleRest VTasks 7 w).2 - now w
     = 30 * (1000000 * 500) + 31 * 1000000.
Proof. vm_compute. repeat split. Qed.

(** C3. Expected failures that end in a panic: a second [Authorize] after
    an acquisition that was answered 401, or that could not reach the
    server; [GetVersion] when the list of versions is empty, or when
    [sys_version] is a number; and [sanitizeVersion] on a version with
    two segments. *)
Theorem expected_failures_that_panic :
  let locked := booted lockedOut in
  let away := booted unreachable in
  (Authorize sampleConfig locked).1
  = Err (Errorf "invalid status code %d, err: %s" [ArgD 401; ArgS ""])
  /\ (Authorize sampleConfig (Authorize sampleConfig locked).2).1
     = Panic panic_nil_deref
  /\ (Authorize sampleConfig away).1
     = Err (Errorf "server unreachable: verify the host is correct and the network is accessible" [])
  /\ (Authorize sampleConfig (Authorize sampleConfig away).2).1
     = Panic panic_nil_deref
  /\ (eGetVersion sampleRest (booted (appliance "[]"))).1 = Panic panic_index
  /\ (eGetVersion sampleRest (booted (appliance oddVersionsBody))).1
     = Panic panic_conversion
  /\ sanitizeVersion "5.3" = Panic panic_slice.
Proof. vm_compute. repeat split. Qed.

(** *** Witnesses: the general theorems at work *)

Lemma Update_merges_allocated_witness :
  let p : gmap string Value := {[ "name" := VString "h1" ]} in
  let q : Params := mkMap {[ "name" := VString "h2" ]} in
  (exists p', ParamsM.UpdateIn [("name", VString "h2")] (mkMap p) true = Ok (mkMap p')
              /\ p' !! "name" = Some (VString "h1"))
  /\ (exists p', ParamsM.UpdateIn [("name", VString "h2")] (mkMap p) false = Ok (mkMap p')
                 /\ p' !! "name" = Some (VString "h2")).
Proof.
  intros p q.
  assert (ParamsM.iteration q [("name", VString "h2")]) as Horder.
  { unfold ParamsM.iteration, q. simpl. by rewrite map_to_list_singleton. }
  split.
  - destruct (Update_merges_allocated p q true _ Horder) as (p' & HU & Hk).
    exists p'. split; [exact HU|]. rewrite (Hk "name"). reflexivity.
  - destruct (Update_merges_allocated p q false _ Horder) as (p' & HU & Hk).
    exists p'. split; [exact HU|]. rewrite (Hk "name"). reflexivity.
Defined.

Lemma version_gate_witness :
  let w := booted (appliance versionsBody) in
  eCheck sampleRest Views w = (Ok tt, w)
  /\ eList sampleRest Volumes nilMap w
     = (Err (versionIncompatible Volumes [5; 2; 0] [5; 3; 0]),
        (eGetVersion sampleRest w).2).
Proof.
  intros w. split.
  - apply (proj1 (version_gate configBeforeRequest configAfterRequest
                    sampleRest Views w)).
    reflexivity.
  - destruct (version_gate configBeforeRequest configAfterRequest
                sampleRest Volumes w) as [_ H].
    destruct (H [5; 3; 0] [5; 2; 0] (eGetVersion sampleRest w).2)
      as (_ & _ & Hops).
    + vm_compute; reflexivity.
    + vm_compute; reflexivity.
    + apply Hops. vm_compute; reflexivity.
Defined.

Lemma Get_by_number_of_matches_witness :
  let w := booted (appliance versionsBody) in
  eGet sampleRest Views nilMap w
  = (Err (NotFoundError "views" ""), (eList sampleRest Views nilMap w).2)
  /\ (eGet sampleRest Quotas nilMap w).1
     = Ok (mkMap (<[ resourceTypeKey := VString "Quota" ]> (entries quota)))
  /\ eGet sampleRest Views (mkMap {[ "name" := VString "v" ]}) w
     = (Err (ambiguousMatch Views (mkMap {[ "name" := VString "v" ]})),
        (eList sampleRest Views (mkMap {[ "name" := VString "v" ]}) w).2).
Proof.
  intros w. split; [|split].
  - assert (eList sampleRest Views nilMap w
            = (Ok [], (eList sampleRest Views nilMap w).2)) as HList
      by (vm_compute; reflexivity).
    apply (proj1 (Get_by_number_of_matches configBeforeRequest configAfterRequest
                    sampleRest Views nilMap w _ [] HList)).
    reflexivity.
  - set (one := mkMap (<[ resourceTypeKey := VString "Quota" ]> (entries quota))).
    assert (eList sampleRest Quotas nilMap w
            = (Ok [one], (eList sampleRest Quotas nilMap w).2)) as HList
      by (vm_compute; reflexivity).
    rewrite (proj1 (proj2 (Get_by_number_of_matches configBeforeRequest
                             configAfterRequest sampleRest Quotas nilMap w _
                             [one] HList)) one eq_refl).
    reflexivity.
  - set (params := mkMap {[ "name" := VString "v" ]}).
    set (result := match (eList sampleRest Views params w).1 with
                   | Ok rs => rs
                   | _ => []
                   end).
    assert (eList sampleRest Views params w
            = (Ok result, (eList sampleRest Views params w).2)) as HList
      by (vm_compute; reflexivity).
    apply (proj2 (proj2 (Get_by_number_of_matches configBeforeRequest
                           configAfterRequest sampleRest Views params w _
                           result HList))).
    vm_compute. lia.
Defined.

Lemma Delete_by_lookup_witness :
  let w := booted (appliance versionsBody) in
  eDelete sampleRest Views nilMap w
  = (Ok (mkMap ∅), (eGet sampleRest Views nilMap w).2)
  /\ eDelete sampleRest Quotas nilMap w
     = eDeleteById sampleRest Quotas 7 (eGet sampleRest Quotas nilMap w).2.
Proof.
  intros w. split.
  - destruct (Delete_by_lookup configBeforeRequest configAfterRequest
                sampleRest Views nilMap w) as [Herr _].
    apply (Herr (NotFoundError "views" "")).
    + vm_compute; reflexivity.
    + reflexivity.
  - destruct (Delete_by_lookup configBeforeRequest configAfterRequest
                sampleRest Quotas nilMap w) as [_ Hok].
    set (result := match (eGet sampleRest Quotas nilMap w).1 with
                   | Ok r => r
                   | _ => nilMap
                   end).
    destruct (Hok result (eGet sampleRest Quotas nilMap w).2) as [_ Hid].
    + vm_compute; reflexivity.
    + apply (Hid (VFloat64 f7_9)). vm_compute; reflexivity.
Defined.

Lemma Delete_truncates_fractional_id_witness :
  let w := booted (appliance versionsBody) in
  toInt (VFloat64 f7_9) = Ok 7
  /\ eDelete sampleRest Quotas nilMap w
     = eDeleteById sampleRest Quotas 7 (eGet sampleRest Quotas nilMap w).2
  /\ traffic (eDelete sampleRest Quotas nilMap w).2
     = [tokenCall; ("GET", "https://10.27.40.1:443/api/quotas");
        ("DELETE", "https://10.27.40.1:443/api/quotas/7")].
Proof.
  intros w.
  set (result := match (eGet sampleRest Quotas nilMap w).1 with
                 | Ok r => r
                 | _ => nilMap
                 end).
  destruct (Delete_truncates_fractional_id configBeforeRequest configAfterRequest
              sampleRest Quotas nilMap w (eGet sampleRest Quotas nilMap w).2
              result false 8894609264056730 (-50))
    as (Hto & _ & Hdel).
  - vm_compute; reflexivity.
  - vm_compute; reflexivity.
  - vm_compute; reflexivity.
  - vm_compute; reflexivity.
  - split; [exact Hto|]. split; [exact Hdel|]. vm_compute; reflexivity.
Defined.

Lemma Authorize_exchanges_witness :
  let w := booted (appliance versionsBody) in
  let w1 := (Authorize sampleConfig w).2 in
  let w2 := set_now (now w1 + TokenRefreshTime) w1 in
  let token := {| Access := "A1"; Refresh := "R1"; CreatedAt := 1000000 |} in
  (exists r w', Authorize sampleConfig w = (r, w')
                /\ wire w' = wire w ++ [acquireRequest sampleConfig])
  /\ Authorize sampleConfig w1 = (Ok tt, w1)
  /\ (exists r w', Authorize sampleConfig w2 = (r, w')
                   /\ wire w' = wire w2 ++ [refreshRequest sampleConfig token]).
Proof.
  intros w w1 w2 token.
  assert (initialized (jwt w) = false) as Hnew by (vm_compute; reflexivity).
  assert (initialized (jwt w1) = true) as Hinit1 by (vm_compute; reflexivity).
  assert (Token (jwt w1) = Some token) as Htok1 by (vm_compute; reflexivity).
  assert (initialized (jwt w2) = true) as Hinit2 by (vm_compute; reflexivity).
  assert (Token (jwt w2) = Some token) as Htok2 by (vm_compute; reflexivity).
  assert (now w1 - CreatedAt token < TokenRefreshTime) as Hfresh
    by (vm_compute; reflexivity).
  assert (TokenRefreshTime <= now w2 - CreatedAt token) as Hstale
    by (vm_compute; discriminate).
  split; [|split].
  - destruct (proj1 (Authorize_exchanges sampleConfig w) Hnew)
      as (r & w' & HA & Hwire & _).
    exists r, w'. split; assumption.
  - exact (proj1 (proj2 (Authorize_exchanges sampleConfig w1) token Hinit1 Htok1)
             Hfresh).
  - destruct (proj2 (proj2 (Authorize_exchanges sampleConfig w2) token Hinit2 Htok2)
                Hstale) as (r & w' & HA & Hwire & _).
    exists r, w'. split; assumption.
Defined.

Lemma request_asserts_hook_result_witness :
  let w := bootedWith hookedConfig (appliance versionsBody) in
  let r := asResource configBeforeRequest configAfterRequest hookedRest VTasks in
  request TRecord r "GET" "vtasks/7" "" nilMap nilMap w
  = (Panic panic_conversion,
     (requestDecoded TRecord r "GET" "vtasks/7" "" nilMap nilMap w).2).
Proof.
  intros w r.
  set (result := match (requestDecoded TRecord r "GET" "vtasks/7" "" nilMap nilMap w).1
                 with Ok x => x | _ => nilMap end).
  set (w1 := (requestDecoded TRecord r "GET" "vtasks/7" "" nilMap nilMap w).2).
  assert (requestDecoded TRecord r "GET" "vtasks/7" "" nilMap nilMap w
          = (Ok result, w1)) as Hdecoded by (vm_compute; reflexivity).
  assert (doAfterRequest r (toRenderable TRecord result) w1
          = (Ok (RRecordSet []), w1)) as Hhook by (vm_compute; reflexivity).
  apply (proj1 (request_asserts_hook_result TRecord r "GET" "vtasks/7" ""
                  nilMap nilMap w w1 w1 result (RRecordSet []) Hdecoded Hhook)).
  discriminate.
Defined.

End Examples.

(** * Further properties of the package *)

(** ** The dispatcher, step by step *)

Section DispatcherSteps.
Context `{RT : GoRuntime} `{VL : GoVersion}.
Import GoStrings.


Lemma resolveVerb_known (session : RESTSession.t) (verb : string) :
  verb ∈ knownVerbs <-> is_Some (resolveVerb session verb).
Proof.
  unfold knownVerbs. split.
  - intros H.
    repeat (apply elem_of_cons in H as [->|H]; [by eexists|]).
    by apply elem_of_nil in H.
  - intros [m Hm]. revert Hm. unfold resolveVerb.
    repeat match goal with
           | |- context [String.eqb verb ?v] =>
               destruct (String.eqb_spec verb v) as [->|?];
               [intros _; rewrite !elem_of_cons; tauto|]
           end.
    discriminate.
Qed.

Lemma requestDecoded_steps T r verb path apiVer params body w :
  requestDecoded T r verb path apiVer params body w
  = (requestSent r verb path apiVer params body ≫= decodeAndTag T r) w.
Proof.
  unfold requestDecoded, requestSent, decodeAndTag.
  destruct (resolveVerb (Session r) (ToUpper verb)) as [vmsMethod|]; [|reflexivity].
  unfold_monad.
  destruct (bodies body) as [err|[data copy]]; [reflexivity|].
  destruct (buildUrl _ _ _ _) as [err|url]; [reflexivity|].
  destruct (doBeforeRequest r _ _ _ w) as [[[]|err|msg] w1]; reflexivity.
Qed.


(** X2. An error of the before-request interceptor ends the call: the
    error is returned in the world the interceptor left, whatever the
    verbs of the session would have done. *)
Theorem request_stops_at_before_hook (T : RecordUnion)
    (r : InterceptableVastResource) (verb path apiVer : string)
    (params body : Params) (w w1 : World)
    (data copy : option string) (url : string) (err : error) :
  ToUpper verb ∈ knownVerbs ->
  bodies body = inr (data, copy) ->
  buildUrl (Session r) path (if negb (isNil params) then ToQuery params else "") apiVer
  = inr url ->
  doBeforeRequest r (ToUpper verb) url copy w = (Err err, w1) ->
  request T r verb path apiVer params body w = (Err err, w1).
Proof.
  intros Hverb Hbodies Hurl Hhook. unfold request, requestDecoded.
  apply (resolveVerb_known (Session r)) in Hverb as [m ->].
  unfold_monad. by rewrite Hbodies, Hurl, Hhook.
Qed.

(** X3. A call for an [EmptyRecord] does not look at the body of the
    response: whatever the server sent with its 2xx status, the decoded
    result is the nil [EmptyRecord] and nothing is printed. *)
Theorem empty_record_ignores_body (r : InterceptableVastResource)
    (verb path apiVer : string) (params body : Params) (w w1 : World)
    (response : Response) :
  requestSent r verb path apiVer params body w = (Ok response, w1) ->
  requestDecoded TEmptyRecord r verb path apiVer params body w = (Ok nilMap, w1).
Proof.
  intros Hsent. rewrite requestDecoded_steps, (bind_Ok _ _ _ _ _ Hsent).
  reflexivity.
Qed.

(** X4. When the body of a response does not decode into the shape asked
    for, the decoding error is printed and returned, and the
    after-request interceptor is not called: the world is the one the
    session left, with the error added to the output. *)
Theorem request_decode_failure (T : RecordUnion) (r : InterceptableVastResource)
    (verb path apiVer : string) (params body : Params) (w w1 : World)
    (response : Response) (err : error) :
  requestSent r verb path apiVer params body w = (Ok response, w1) ->
  unmarshalToRecordUnion T response = inl err ->
  request T r verb path apiVer params body w
  = (Err err, set_stdout (stdout w1 ++ [err]) w1).
Proof.
  intros Hsent Hdecode. unfold request.
  apply bind_Err. rewrite requestDecoded_steps, (bind_Ok _ _ _ _ _ Hsent).
  unfold decodeAndTag. rewrite Hdecode. reflexivity.
Qed.

End DispatcherSteps.

(** ** Tagging with the resource type *)

Section TaggingProps.
Context `{RT : GoRuntime} `{VL : GoVersion}.
Local Open Scope list_scope.

Lemma stamp_allocated resourceType (g : gmap string Value) :
  stamp resourceType (mkMap g) = Ok (mkMap (tagged resourceType g)).
Proof.
  unfold stamp, tagged, mapGet. simpl.
  by destruct (g !! resourceTypeKey).
Qed.

Lemma stampAll_allocated resourceType (rs : list (gmap string Value)) :
  stampAll resourceType (mkMap <$> rs)
  = Ok ((fun g => mkMap (tagged resourceType g)) <$> rs).
Proof.
  induction rs as [|g rs IH]; [reflexivity|].
  rewrite !fmap_cons. cbn [stampAll]. by rewrite stamp_allocated, IH.
Qed.

Lemma stampAll_nil resourceType (rs : RecordSet) :
  nilMap ∈ rs -> stampAll resourceType rs = Panic panic_nil_map.
Proof.
  induction rs as [|rec rs IH]; intros Hin.
  - by apply elem_of_nil in Hin.
  - simpl. destruct rec as [|g].
    + reflexivity.
    + rewrite stamp_allocated.
      apply elem_of_cons in Hin as [Hin|Hin]; [discriminate|].
      by rewrite (IH Hin).
Qed.

Lemma tagged_lookup resourceType (g : gmap string Value) (k : string) :
  tagged resourceType g !! k
  = if decide (k = resourceTypeKey)
    then Some (default (VString resourceType) (g !! resourceTypeKey))
    else g !! k.
Proof.
  unfold tagged. destruct (g !! resourceTypeKey) as [v|] eqn:E.
  - case_decide; [by subst|done].
  - case_decide.
    + subst. by rewrite lookup_insert_eq.
    + by rewrite lookup_insert_ne.
Qed.

(** X5. [setResourceKey] on a record set of allocated records returns as
    many records, in the same order; each has the resource-type tag,
    which is the tag it came with if it had one and the resource type
    otherwise; every other key reads as before. A nil record in the set
    (a JSON [null] element) makes it panic. *)
Theorem setResourceKey_tags (resourceType : string) (rs : list (gmap string Value)) :
  (exists rs' : list (gmap string Value),
      setResourceKey TRecordSet (inr (mkMap <$> rs)) resourceType = Ok (mkMap <$> rs')
      /\ length rs' = length rs
      /\ forall i g g',
           rs !! i = Some g -> rs' !! i = Some g' ->
           g' !! resourceTypeKey
           = Some (default (VString resourceType) (g !! resourceTypeKey))
           /\ forall k, k <> resourceTypeKey -> g' !! k = g !! k)
  /\ (forall (others : RecordSet),
        nilMap ∈ others ->
        setResourceKey TRecordSet (inr others) resourceType = Panic panic_nil_map).
Proof.
  split.
  - exists (tagged resourceType <$> rs). split; [|split].
    + simpl. rewrite stampAll_allocated. f_equal.
      by rewrite <- list_fmap_compose.
    + by rewrite length_fmap.
    + intros i g g' Hg Hg'. rewrite list_lookup_fmap, Hg in Hg'.
      injection Hg' as <-. split.
      * rewrite tagged_lookup. by case_decide.
      * intros k Hk. rewrite tagged_lookup. by case_decide.
  - intros others Hin. simpl. by apply stampAll_nil.
Qed.

End TaggingProps.

(** ** The session and its authenticators *)

Section SessionProps.
Context `{RT : GoRuntime} `{VL : GoVersion}.
Local Open Scope list_scope.

Lemma roundTrip_effect req w reply w' :
  roundTrip req w = (reply, w') ->
  wire w' = wire w ++ [req] /\ jwt w' = jwt w /\ apiToken w' = apiToken w.
Proof.
  unfold roundTrip. destruct (remote w (wire w) req) as [took r].
  intros [= <- <-]. repeat split.
Qed.

(** What one [Authorize] does to the wire and to the token, whatever the
    authenticator started from. *)
Lemma Authorize_effect config w r w' :
  Authorize config w = (r, w') ->
  ((w' = w /\ forall e, r <> Err e)
   \/ (initialized (jwt w) = false /\ wire w' = wire w ++ [acquireRequest config])
   \/ (exists t, initialized (jwt w) = true /\ Token (jwt w) = Some t
                 /\ TokenRefreshTime <= now w - CreatedAt t
                 /\ wire w' = wire w ++ [refreshRequest config t]))
  /\ (r = Ok tt ->
        exists t, Token (jwt w') = Some t
                  /\ now w' - CreatedAt t < TokenRefreshTime).
Proof.
  intros HA. destruct (initialized (jwt w)) eqn:Hinit.
  - destruct (Token (jwt w)) as [t|] eqn:Htok.
    + destruct (Z.lt_ge_cases (now w - CreatedAt t) TokenRefreshTime) as [Hf|Hs].
      * rewrite (Authorize_fresh config w t Hinit Htok Hf) in HA.
        injection HA as <- <-. split; [by left|]. intros _. eauto.
      * destruct (Authorize_stale config w t Hinit Htok Hs)
          as (r1 & w1 & HA' & Hwire & Hr).
        rewrite HA in HA'. injection HA' as <- <-. split.
        -- right. right. exists t. auto.
        -- intros ->. destruct (Hr eq_refl) as (t' & Ht' & Hc).
           exists t'. split; [exact Ht'|]. rewrite Hc.
           unfold TokenRefreshTime. lia.
    + unfold Authorize in HA. rewrite Hinit, Htok in HA.
      injection HA as <- <-. split; [by left|]. discriminate.
  - destruct (Authorize_first config w Hinit) as (r1 & w1 & HA' & Hwire & _ & Hr).
    rewrite HA in HA'. injection HA' as <- <-. split.
    + right. left. auto.
    + intros ->. destruct Hr as (t & Ht & Hc).
      exists t. split; [exact Ht|]. rewrite Hc. unfold TokenRefreshTime. lia.
Qed.

(** X6. One [Authorize] puts at most one request on the wire, a token
    exchange, and when it returns without an error the authenticator
    holds a token that is less than [TokenRefreshTime] (ten minutes)
    old. *)
Theorem Authorize_leaves_a_fresh_token (config : Config.VMSConfig)
    (w w' : World) (r : outcome unit) :
  Authorize config w = (r, w') ->
  (wire w' = wire w
   \/ wire w' = wire w ++ [acquireRequest config]
   \/ exists t, Token (jwt w) = Some t
                /\ wire w' = wire w ++ [refreshRequest config t])
  /\ (r = Ok tt ->
        exists t, Token (jwt w') = Some t
                  /\ now w' - CreatedAt t < TokenRefreshTime).
Proof.
  intros HA. apply Authorize_effect in HA as [Hwire Hok].
  split; [|exact Hok].
  destruct Hwire as [[-> _]|[[_ H]|(t & _ & Ht & _ & H)]]; eauto.
Qed.

(** X7. A refresh that fails leaves the authenticator as it was: the old
    token stays in place, so the next [Authorize] (the clock not having
    run backwards) attempts the refresh again, with the same refresh
    token. *)
Theorem failed_refresh_keeps_the_token (config : Config.VMSConfig)
    (w w' : World) (t : jwtToken) (e : error) :
  initialized (jwt w) = true ->
  Token (jwt w) = Some t ->
  TokenRefreshTime <= now w - CreatedAt t ->
  Authorize config w = (Err e, w') ->
  now w <= now w' ->
  jwt w' = jwt w
  /\ wire w' = wire w ++ [refreshRequest config t]
  /\ exists r w'',
       Authorize config w' = (r, w'')
       /\ wire w'' = wire w' ++ [refreshRequest config t].
Proof.
  intros Hinit Htok Hstale HA Hnow.
  assert (jwt w' = jwt w /\ wire w' = wire w ++ [refreshRequest config t])
    as (Hjwt & Hwire).
  { revert HA. unfold Authorize, refreshToken.
    rewrite Hinit, Htok, timeSub_expired.
    replace (TokenRefreshTime <=? now w - CreatedAt t) with true
      by (symmetry; apply Z.leb_le; lia).
    simpl negb. cbv iota.
    unfold clientPost, roundTrip.
    destruct (remote w (wire w) _) as [took [err|resp]]; intros Hacc;
      apply acceptToken_effect in Hacc as (Hw & Hn & _ & Hr); simpl in *;
      subst w'; simpl; repeat split; try reflexivity. }
  split; [exact Hjwt|]. split; [exact Hwire|].
  destruct (Authorize_stale config w' t) as (r & w'' & HA' & Hwire' & _).
  - by rewrite Hjwt.
  - by rewrite Hjwt.
  - lia.
  - eauto.
Qed.

End SessionProps.

(** ** What a session sends *)

Section WireProps.
Context `{RT : GoRuntime} `{VL : GoVersion}.
Local Open Scope list_scope.

(** The current token of an API-token authenticator: the stored one, or
    the configured one when none is stored. *)
Lemma SetAuthHeader_api config w :
  SetAuthHeader UseApiRToken config w
  = (Ok ("Api-Token " ++ (if String.eqb (ApiRToken (apiToken w)) ""
                          then Config.ApiToken config
                          else ApiRToken (apiToken w)))%string,
     if String.eqb (ApiRToken (apiToken w)) ""
     then set_apiToken {| ApiRToken := Config.ApiToken config |} w
     else w).
Proof.
  unfold SetAuthHeader. by destruct (String.eqb (ApiRToken (apiToken w)) "").
Qed.



(** X9. A session that authenticates with an API token sends exactly one
    request per call, the one asked for, with the [Api-Token] header:
    there is no login exchange, and the token authenticator of the
    world is not touched. The token is the one stored, or the
    configured one when none is stored yet. *)
Theorem api_token_session_sends_one_request (s : VMSSession)
    (verb url : string) (body : option string) (w : World) :
  auth s = UseApiRToken ->
  httpNewRequest verb url = None ->
  let token := if String.eqb (ApiRToken (apiToken w)) ""
               then Config.ApiToken (config s)
               else ApiRToken (apiToken w) in
  let w' := (doRequest s verb url body w).2 in
  wire w' = wire w ++ [outgoing s verb url body ("Api-Token " ++ token)]
  /\ jwt w' = jwt w
  /\ ApiRToken (apiToken w') = token.
Proof.
  intros Hauth Hnew. unfold doRequest, setupHeaders. rewrite Hnew, Hauth.
  unfold_monad. rewrite SetAuthHeader_api. cbv zeta.
  set (w1 := if String.eqb (ApiRToken (apiToken w)) "" then _ else w).
  assert (wire w1 = wire w /\ jwt w1 = jwt w
          /\ ApiRToken (apiToken w1)
             = if String.eqb (ApiRToken (apiToken w)) ""
               then Config.ApiToken (config s) else ApiRToken (apiToken w))
    as (Hw1 & Hj1 & Ha1).
  { unfold w1. by destruct (String.eqb (ApiRToken (apiToken w)) ""). }
  destruct (roundTrip _ w1) as [[err|resp] w2] eqn:Hrt;
    apply roundTrip_effect in Hrt as (Hwire & Hjwt & Hapi).
  - simpl. rewrite Hwire, Hjwt, Hapi, Hw1, Hj1, Ha1. auto.
  - unfold validateResponse.
    destruct ((200 <=? StatusCode resp) && (StatusCode resp <=? 299));
      simpl; rewrite Hwire, Hjwt, Hapi, Hw1, Hj1, Ha1; auto.
Qed.

(** X10. With the token authenticator, a call whose token exchange fails
    ends with the error of the exchange, and the request itself is not
    sent: the one request that went out is the login or the refresh. *)
Theorem doRequest_stops_without_a_token (s : VMSSession) (verb url : string)
    (body : option string) (w w' : World) (e : error) :
  auth s = UseJWT ->
  httpNewRequest verb url = None ->
  Authorize (config s) w = (Err e, w') ->
  doRequest s verb url body w = (Err e, w')
  /\ (wire w' = wire w ++ [acquireRequest (config s)]
      \/ exists t, Token (jwt w) = Some t
                   /\ wire w' = wire w ++ [refreshRequest (config s) t]).
Proof.
  intros Hauth Hnew HA. split.
  - unfold doRequest, setupHeaders. rewrite Hnew, Hauth.
    unfold SetAuthHeader. unfold_monad. by rewrite HA.
  - apply Authorize_effect in HA as [[[_ H]|[[_ H]|(t & _ & Ht & _ & H)]] _]; eauto.
    by destruct (H e).
Qed.

(** X30. A login that fails leaves a session that cannot be used: the
    authenticator counts as initialized but holds no token, so every
    later request of the session panics on the nil token, before
    anything is sent. *)
Theorem session_is_unusable_after_a_failed_login (s : VMSSession)
    (verb url : string) (body : option string) (w w' : World) (e : error) :
  auth s = UseJWT ->
  initialized (jwt w) = false ->
  Token (jwt w) = None ->
  Authorize (config s) w = (Err e, w') ->
  httpNewRequest verb url = None ->
  doRequest s verb url body w' = (Panic panic_nil_deref, w').
Proof.
  intros Hauth Hinit Htok HA Hnew.
  pose proof (Authorize_after_failure (config s) w e w' Hinit Htok HA) as Hnext.
  unfold doRequest, setupHeaders. rewrite Hnew, Hauth.
  unfold SetAuthHeader. unfold_monad. by rewrite Hnext.
Qed.

(** X11. Making a session sends nothing and takes no time. With a user
    name and a password that are both non-empty the session gets the
    token authenticator, not yet initialized and without a token, even
    when an API token is configured as well; otherwise a non-empty API
    token gives the API-token authenticator; with neither, it panics. *)
Theorem NewVMSSession_picks_the_authenticator (config : Config.VMSConfig)
    (w : World) :
  let userPass := negb (String.eqb (Config.Username config) "")
                  && negb (String.eqb (Config.Password config) "") in
  let w' := (NewVMSSession config w).2 in
  wire w' = wire w /\ now w' = now w
  /\ (userPass = true ->
        (NewVMSSession config w).1 = Ok {| config := config; auth := UseJWT |}
        /\ jwt w' = {| Username := Config.Username config;
                       Password := Config.Password config;
                       Token := None; initialized := false |})
  /\ (userPass = false -> Config.ApiToken config <> "" ->
        (NewVMSSession config w).1
        = Ok {| config := config; auth := UseApiRToken |}
        /\ apiToken w' = {| ApiRToken := Config.ApiToken config |}
        /\ jwt w' = jwt w)
  /\ (userPass = false -> Config.ApiToken config = "" ->
        exists msg, NewVMSSession config w = (Panic msg, w)).
Proof.
  unfold NewVMSSession, CreateAuthenticator. unfold_monad.
  destruct (negb (String.eqb (Config.Username config) "")
            && negb (String.eqb (Config.Password config) "")).
  - simpl. repeat split; try discriminate.
  - destruct (String.eqb_spec (Config.ApiToken config) "") as [E|E]; simpl.
    + repeat split; try discriminate; try contradiction. eauto.
    + repeat split; try discriminate; try contradiction.
Qed.

End WireProps.

(** ** More of the resources *)

Section ResourceProps.
Context `{RT : GoRuntime} `{VL : GoVersion}.
Variable before : VMSRest -> VastResourceEntry -> string -> string -> option string -> M unit.
Variable after : VMSRest -> VastResourceEntry -> Renderable -> M Renderable.
Local Open Scope list_scope.

Local Abbreviation xGet := (Get before after).
Local Abbreviation xGetById := (GetById before after).
Local Abbreviation xCreate := (Create before after).
Local Abbreviation xEnsure := (Ensure before after).
Local Abbreviation xEnsureBlockHost := (EnsureBlockHost before after).
Local Abbreviation xGetVersion := (GetVersion before after).
Local Abbreviation xIsTaskComplete := (isTaskComplete before after).
Local Abbreviation xWaitLoop := (waitLoop before after).
Local Abbreviation xWaitTask := (WaitTask before after).


(** X13. When the lookup by name finds nothing, [Ensure] creates the
    resource from the body with [name] written into it, over a [name]
    the body may have had; every other key of the body goes out
    unchanged. A nil body cannot take the name: [Ensure] panics after
    the lookup, before anything is created. *)
Theorem Ensure_creates_what_is_missing (rest : VMSRest) (e : VastResourceEntry)
    (name : string) (w w' : World) (err : error) :
  xGet rest e (mkMap {[ "name" := VString name ]}) w = (Err err, w') ->
  isNotFoundErr err = true ->
  (forall b : gmap string Value,
      exists b' : gmap string Value,
        xEnsure rest e name (mkMap b) w = xCreate rest e (mkMap b') w'
        /\ b' !! "name" = Some (VString name)
        /\ forall k, k <> "name" -> b' !! k = b !! k)
  /\ xEnsure rest e name nilMap w = (Panic panic_nil_map, w').
Proof.
  intros HG Hnf. split.
  - intros b. exists (<[ "name" := VString name ]> b). split; [|split].
    + unfold Ensure. by rewrite HG, Hnf.
    + by rewrite lookup_insert_eq.
    + intros k Hk. by rewrite lookup_insert_ne.
  - unfold Ensure. by rewrite HG, Hnf.
Qed.

(** The parameters and the body of [EnsureBlockHost]. *)
Lemma blockHost_body (name : string) (tenantId : Z) (nqn : string) :
  ParamsM.Update
    (mkMap (<[ "name" := VString name ]> (<[ "tenant_id" := VInt tenantId ]> ∅)))
    (mkMap (<[ "nqn" := VString nqn ]>
            (<[ "os_type" := VString "LINUX" ]>
             (<[ "connectivity_type" := VString "tcp" ]> ∅))))
    false
  = Ok (mkMap (<[ "name" := VString name ]>
               (<[ "tenant_id" := VInt tenantId ]>
                (<[ "nqn" := VString nqn ]>
                 (<[ "os_type" := VString "LINUX" ]>
                  (<[ "connectivity_type" := VString "tcp" ]> ∅)))))).
Proof.
  unfold ParamsM.Update.
  rewrite (UpdateIn_allocated _ _ (mkMap (<[ "nqn" := VString nqn ]>
            (<[ "os_type" := VString "LINUX" ]>
             (<[ "connectivity_type" := VString "tcp" ]> ∅)))))
    by (unfold ParamsM.iteration; reflexivity).
  reflexivity.
Qed.

(** X14. [EnsureBlockHost] looks the host up by name and tenant. A host
    that is found is returned and nothing is created. When none is
    found it creates one whose body has five keys: the name, the tenant,
    the NQN, the OS type [LINUX] and the connectivity type [tcp]. *)
Theorem EnsureBlockHost_body (rest : VMSRest) (bh : VastResourceEntry)
    (name : string) (tenantId : Z) (nqn : string) (w : World) :
  let params : Params :=
    mkMap (<[ "name" := VString name ]> (<[ "tenant_id" := VInt tenantId ]> ∅)) in
  (forall blockHost w',
      xGet rest bh params w = (Ok blockHost, w') ->
      xEnsureBlockHost rest bh name tenantId nqn w = (Ok blockHost, w'))
  /\ (forall err w',
        xGet rest bh params w = (Err err, w') ->
        isNotFoundErr err = true ->
        xEnsureBlockHost rest bh name tenantId nqn w
        = xCreate rest bh
            (mkMap (<[ "name" := VString name ]>
                    (<[ "tenant_id" := VInt tenantId ]>
                     (<[ "nqn" := VString nqn ]>
                      (<[ "os_type" := VString "LINUX" ]>
                       (<[ "connectivity_type" := VString "tcp" ]> ∅))))))
            w')
  /\ (forall err w',
        xGet rest bh params w = (Err err, w') ->
        isNotFoundErr err = false ->
        xEnsureBlockHost rest bh name tenantId nqn w = (Err err, w')).
Proof.
  intros params. split; [|split].
  - intros blockHost w' HG. unfold EnsureBlockHost. fold params. by rewrite HG.
  - intros err w' HG Hnf. unfold EnsureBlockHost. fold params.
    rewrite HG, Hnf. unfold params. by rewrite blockHost_body.
  - intros err w' HG Hnf. unfold EnsureBlockHost. fold params.
    by rewrite HG, Hnf.
Qed.

(** One poll that succeeds has read a task whose state is [completed],
    in any mix of upper and lower case, and whose [id] is a number. *)
Lemma isTaskComplete_ok rest t taskId w task w' :
  xIsTaskComplete rest t taskId w = (Ok task, w') ->
  xGetById rest t taskId w = (Ok task, w')
  /\ GoStrings.ToLower (fmtSprint (index task "state")) = "completed"
  /\ exists n, toInt (index task "id") = Ok n.
Proof.
  unfold isTaskComplete. unfold_monad.
  destruct (GetById before after rest t taskId w) as [[found|e|msg] w1];
    try discriminate.
  destruct (toInt (index found "id")) as [n|e|msg] eqn:Hid; try discriminate.
  destruct (String.eqb_spec
              (GoStrings.ToLower (fmtSprint (index found "state"))) "completed")
    as [Hstate|_].
  - intros [= <- <-]. eauto.
  - destruct (String.eqb _ "running"); [discriminate|].
    destruct (index found "messages"); try discriminate.
    destruct (last l); discriminate.
Qed.

Lemma waitLoop_ok rest t taskId retries interval backoffRate w task w' :
  xWaitLoop rest t taskId retries interval backoffRate w = (Ok task, w') ->
  exists w0, xIsTaskComplete rest t taskId w0 = (Ok task, w').
Proof.
  revert interval w. induction retries as [|n IH]; intros interval w.
  - discriminate.
  - simpl. destruct (isTaskComplete before after rest t taskId w)
      as [[found|e|msg] w1] eqn:Hpoll.
    + intros [= <- <-]. eauto.
    + unfold timeSleep. apply IH.
    + discriminate.
Qed.

(** X15. A task that [WaitTask] returns was read from the server by its
    last poll, is in state [completed] (in any mix of upper and lower
    case) and has an [id] that [toInt] accepts: a failed or a running
    task is never returned. *)
Theorem WaitTask_returns_only_completed_tasks (rest : VMSRest)
    (t : VastResourceEntry) (taskId : Z) (w w' : World) (task : Record) :
  xWaitTask rest t taskId w = (Ok task, w') ->
  GoStrings.ToLower (fmtSprint (index task "state")) = "completed"
  /\ (exists n, toInt (index task "id") = Ok n)
  /\ exists w0, xGetById rest t taskId w0 = (Ok task, w').
Proof.
  unfold WaitTask. intros HW.
  apply waitLoop_ok in HW as [w0 Hpoll].
  apply isTaskComplete_ok in Hpoll as (HG & Hstate & Hid). eauto.
Qed.

(** X16. The cluster version is kept in a variable of the package, not
    of the client: once one [GetVersion] has succeeded, every later
    [GetVersion], of this client or of a client of another cluster,
    returns that version and sends nothing, and so does every version
    check. *)
Theorem GetVersion_is_memoized_for_all_clients (rest rest' : VMSRest)
    (w w' : World) (v : SemVer) :
  xGetVersion rest w = (Ok v, w') ->
  xGetVersion rest' w' = (Ok v, w')
  /\ forall e minimum,
       availableFromVersion e = Some minimum ->
       checkVastResourceVersionCompat before after rest' e w'
       = (if Compare v minimum =? -1
          then Err (versionIncompatible e v minimum) else Ok tt, w').
Proof.
  intros HG. apply GetVersion_caches in HG.
  pose proof (GetVersion_cached before after rest' w' v HG) as Hcached.
  split; [exact Hcached|].
  intros e minimum Hmin.
  by apply gate_with_version.
Qed.

(** X26. With no version cached, [GetVersion] lists the versions with
    status [success] and reads the [sys_version] of the first record
    only. Of that string it parses the first three segments; the core
    of the parsed version is what it returns and what it caches. When
    those segments do not parse, the error of the parser is returned
    and nothing is cached. *)
Theorem GetVersion_reads_the_first_record (rest : VMSRest) (w w' : World)
    (first : Record) (others : RecordSet) (s a b c : string)
    (more : list string) :
  sysVersion w = None ->
  listRequest before after rest Versions
    (mkMap {[ "status" := VString "success" ]}) w = (Ok (first :: others), w') ->
  index first "sys_version" = VString s ->
  GoStrings.Split s "." = a :: b :: c :: more ->
  (forall cv, NewVersion (GoStrings.Join [a; b; c] ".") = inr cv ->
     xGetVersion rest w = (Ok (Core cv), set_sysVersion (Some (Core cv)) w'))
  /\ (forall err, NewVersion (GoStrings.Join [a; b; c] ".") = inl err ->
        xGetVersion rest w = (Err err, w')).
Proof.
  intros Hnone Hlist Hfirst Hsplit.
  assert (sanitizeVersion s
          = Ok (GoStrings.Join [a; b; c] ".", negb (bool_decide (more = []))))
    as Hsan.
  { unfold sanitizeVersion. rewrite Hsplit.
    replace (Z.of_nat (length (a :: b :: c :: more)) <? 3) with false
      by (symmetry; apply Z.ltb_ge; simpl length; lia).
    change (take 3 (a :: b :: c :: more)) with [a; b; c].
    do 2 f_equal. destruct more; simpl length.
    - reflexivity.
    - rewrite bool_decide_eq_false_2 by discriminate.
      apply Z.ltb_lt. lia. }
  split.
  - intros cv Hparse. unfold GetVersion. rewrite Hnone.
    unfold_monad. rewrite Hlist, Hfirst, Hsan, Hparse. reflexivity.
  - intros err Hparse. unfold GetVersion. rewrite Hnone.
    unfold_monad. rewrite Hlist, Hfirst, Hsan, Hparse. reflexivity.
Qed.

(** X27. Any error that ends a poll keeps [WaitTask] going, be it a
    task that failed for good, a rejected login or a response that does
    not decode: it sleeps for half a second and polls again with one
    attempt fewer. The only error [WaitTask] itself returns is the
    timeout. *)
Theorem WaitTask_reports_only_the_timeout (rest : VMSRest)
    (t : VastResourceEntry) (taskId : Z) (w : World) :
  (forall e w', xWaitTask rest t taskId w = (Err e, w') -> e = taskTimeout)
  /\ (forall err w1,
        xIsTaskComplete rest t taskId w = (Err err, w1) ->
        xWaitTask rest t taskId w
        = xWaitLoop rest t taskId 29 (1000000 * 500) 1
            (set_now (now w1 + 1000000 * 500) w1)).
Proof.
  split.
  - intros e w'. unfold WaitTask. apply waitLoop_errors.
  - intros err w1 Hpoll. unfold WaitTask.
    by rewrite (waitLoop_retries before after rest t taskId 29 _ _ w err w1 Hpoll).
Qed.

(** X29. With no version cached, a list of versions that [GetVersion]
    does not expect makes it panic, in the world the listing left: an
    empty list (index out of range), a first record whose [sys_version]
    is missing or is not a string (interface conversion), a version
    string of fewer than three segments (slice bounds). *)
Theorem GetVersion_panics_on_unexpected_lists (rest : VMSRest) (w w' : World)
    (result : RecordSet) :
  sysVersion w = None ->
  listRequest before after rest Versions
    (mkMap {[ "status" := VString "success" ]}) w = (Ok result, w') ->
  (result = [] -> xGetVersion rest w = (Panic panic_index, w'))
  /\ (forall first others,
        result = first :: others ->
        (forall s, index first "sys_version" <> VString s) ->
        xGetVersion rest w = (Panic panic_conversion, w'))
  /\ (forall first others s,
        result = first :: others ->
        index first "sys_version" = VString s ->
        (length (GoStrings.Split s ".") < 3)%nat ->
        xGetVersion rest w = (Panic panic_slice, w')).
Proof.
  intros Hnone Hlist. split; [|split].
  - intros ->. by apply GetVersion_no_record.
  - intros first others -> Hodd. by eapply GetVersion_not_a_string.
  - intros first others s -> Hfirst Hshort.
    unfold GetVersion. rewrite Hnone. unfold_monad.
    rewrite Hlist, Hfirst, (sanitizeVersion_short s Hshort). reflexivity.
Qed.

End ResourceProps.

(** ** Strings: splitting, joining, trimming *)

Section StringProps.
Import GoStrings.
Local Open Scope list_scope.

Lemma Split_not_nil (s : string) (sep : ascii) : Split s sep <> [].
Proof.
  destruct s as [|c r]; simpl; [discriminate|].
  destruct (Ascii.eqb c sep); [discriminate|].
  destruct (Split r sep); discriminate.
Qed.

Lemma Split_field (e : string) (sep : ascii) :
  ContainsByte e sep = false -> Split e sep = [e].
Proof.
  induction e as [|c r IH]; [reflexivity|].
  simpl. rewrite Ascii.eqb_sym. intros H.
  apply orb_false_iff in H as [-> H]. by rewrite (IH H).
Qed.

Lemma Split_app (e r : string) (sep : ascii) :
  ContainsByte e sep = false ->
  Split (e ++ String sep r) sep = e :: Split r sep.
Proof.
  induction e as [|c e IH].
  - intros _. simpl. by rewrite Ascii.eqb_refl.
  - simpl. rewrite Ascii.eqb_sym. intros H.
    apply orb_false_iff in H as [-> H]. by rewrite (IH H).
Qed.

Lemma Split_fields (s : string) (sep : ascii) :
  Forall (fun f => ContainsByte f sep = false) (Split s sep).
Proof.
  induction s as [|c r IH]; simpl.
  - by repeat constructor.
  - destruct (Ascii.eqb c sep) eqn:E.
    + by constructor.
    + destruct (Split r sep) as [|f fs].
      * repeat constructor. simpl. by rewrite Ascii.eqb_sym, E.
      * apply Forall_cons in IH as [Hf Hfs]. constructor; [|exact Hfs].
        simpl. by rewrite Ascii.eqb_sym, E, Hf.
Qed.

Lemma Split_Join (l : list string) (sep : ascii) :
  l <> [] ->
  Forall (fun f => ContainsByte f sep = false) l ->
  Split (Join l (String sep "")) sep = l.
Proof.
  induction l as [|e rest IH]; [done|]. intros _ H.
  apply Forall_cons in H as [He Hrest].
  destruct rest as [|e' rest'].
  - simpl. by apply Split_field.
  - change (Join (e :: e' :: rest') (String sep ""))
      with (e ++ String sep (Join (e' :: rest') (String sep "")))%string.
    rewrite Split_app by exact He. f_equal. by apply IH.
Qed.

Lemma Join_Split (s : string) (sep : ascii) :
  Join (Split s sep) (String sep "") = s.
Proof.
  induction s as [|c r IH]; [reflexivity|].
  simpl. destruct (Ascii.eqb_spec c sep) as [->|_].
  - pose proof (Split_not_nil r sep) as Hne.
    destruct (Split r sep) as [|f fs]; [done|].
    change (Join ("" :: f :: fs) (String sep ""))
      with (String sep (Join (f :: fs) (String sep ""))).
    by rewrite IH.
  - pose proof (Split_not_nil r sep) as Hne.
    destruct (Split r sep) as [|f fs]; [done|].
    rewrite <- IH. by destruct fs.
Qed.

Lemma TrimRight_app_cut (s : string) (cut : ascii) :
  TrimRight (s ++ String cut "") cut = TrimRight s cut.
Proof.
  induction s as [|c r IH]; simpl.
  - by rewrite Ascii.eqb_refl.
  - by rewrite IH.
Qed.

Lemma Trim_app_cut (s : string) (cut : ascii) :
  Trim (s ++ String cut "") cut = Trim s cut.
Proof.
  unfold Trim. induction s as [|c r IH]; simpl.
  - by rewrite Ascii.eqb_refl.
  - destruct (Ascii.eqb c cut); [exact IH|].
    apply (TrimRight_app_cut (String c r)).
Qed.

Lemma Trim_cons_cut (s : string) (cut : ascii) :
  Trim (String cut s) cut = Trim s cut.
Proof. unfold Trim. simpl. by rewrite Ascii.eqb_refl. Qed.

End StringProps.

(** ** [utils.go] and [rest.go] *)

Section UtilsProps.
Context `{RT : GoRuntime} `{VL : GoVersion}.
Import GoStrings.
Local Open Scope list_scope.

(** X17. What [sanitizeVersion] returns has exactly three segments, the
    first three of its input; the flag tells whether there were more. A
    version of three segments comes back as it is, so sanitizing twice
    is sanitizing once. *)
Theorem sanitizeVersion_keeps_three_segments (version core : string)
    (truncated : bool) :
  sanitizeVersion version = Ok (core, truncated) ->
  Split core "." = take 3 (Split version ".")
  /\ length (Split core ".") = 3%nat
  /\ (truncated = true <-> (3 < length (Split version "."))%nat)
  /\ (truncated = false -> core = version)
  /\ sanitizeVersion core = Ok (core, false).
Proof.
  unfold sanitizeVersion.
  pose proof (Split_fields version ".") as Hfields.
  pose proof (Join_Split version ".") as Hjoin.
  destruct (Split version ".") as [|a [|b [|c rest]]]; try discriminate.
  assert (Split (Join [a; b; c] ".") "." = [a; b; c]) as Hcore.
  { apply (Split_Join [a; b; c] "."); [done|].
    apply Forall_cons in Hfields as [Ha Hfields].
    apply Forall_cons in Hfields as [Hb Hfields].
    apply Forall_cons in Hfields as [Hc _].
    by repeat constructor. }
  replace (Z.of_nat (length (a :: b :: c :: rest)) <? 3) with false
    by (symmetry; apply Z.ltb_ge; simpl length; lia).
  change (take 3 (a :: b :: c :: rest)) with [a; b; c].
  remember (Join [a; b; c] ".") as joined eqn:Hjoined.
  remember (length (a :: b :: c :: rest)) as n eqn:Hn.
  intros [= <- <-]. rewrite Hcore.
  split; [reflexivity|]. split; [reflexivity|]. split; [|split].
  - rewrite Z.ltb_lt. lia.
  - intros Hnot. apply Z.ltb_ge in Hnot.
    destruct rest; [by subst|simpl length in Hn; lia].
  - change (take 3 [a; b; c]) with [a; b; c]. by rewrite <- Hjoined.
Qed.

(** X18. Slashes around the path make no difference to the URL: a
    resource path may be given with a leading or a trailing slash. *)
Theorem buildUrl_ignores_outer_slashes (s : RESTSession.t)
    (path query apiVer : string) :
  buildUrl s ("/" +:+ path) query apiVer = buildUrl s path query apiVer
  /\ buildUrl s (path +:+ "/") query apiVer = buildUrl s path query apiVer.
Proof.
  unfold buildUrl. split.
  - change ("/" +:+ path) with (String "/" path).
    by rewrite (Trim_cons_cut path "/").
  - by rewrite (Trim_app_cut path "/").
Qed.

(** X19. [toInt] is exact on a [float64] that is a whole number within
    the range of [int64]: a float of value [n] gives [n]. The value of
    the float [(neg, m, e)] is [signed neg m * 2 ^ e]. *)
Theorem toInt_is_exact_on_whole_numbers (neg : bool) (m : positive) (e n : Z) :
  signed neg m * 2 ^ Z.max 0 e = n * 2 ^ Z.max 0 (- e) ->
  int64_min <= n <= int64_max ->
  toInt (VFloat64 (S754_finite neg m e)) = Ok n
  /\ hasFraction (S754_finite neg m e) = false.
Proof.
  intros Hvalue Hrange. unfold toInt, int64_of_float64, hasFraction.
  destruct (Z.leb_spec 0 e) as [He|He].
  - rewrite Z.max_r in Hvalue by lia.
    rewrite Z.max_l in Hvalue by lia.
    rewrite Z.pow_0_r, Z.mul_1_r in Hvalue. rewrite Hvalue.
    replace ((int64_min <=? n) && (n <=? int64_max)) with true
      by (symmetry; apply andb_true_iff; split; apply Z.leb_le; lia).
    split; [reflexivity|].
    replace (e <? 0) with false by (symmetry; apply Z.ltb_ge; lia).
    reflexivity.
  - rewrite Z.max_l in Hvalue by lia.
    rewrite Z.max_r in Hvalue by lia.
    rewrite Z.pow_0_r, Z.mul_1_r in Hvalue. rewrite Hvalue.
    assert (2 ^ (- e) <> 0) as Hpow by (apply Z.pow_nonzero; lia).
    rewrite Z.quot_mul by exact Hpow.
    rewrite Z.rem_mul by exact Hpow.
    replace ((int64_min <=? n) && (n <=? int64_max)) with true
      by (symmetry; apply andb_true_iff; split; apply Z.leb_le; lia).
    split; [reflexivity|].
    by rewrite andb_false_r.
Qed.

(** X20. [applyCallbackForRecordUnion[T]] calls the callback exactly when
    the response holds the shape [T]; a response of one of the other two
    shapes is returned as it is, without the callback; anything else is
    an error that names its type. *)
Theorem applyCallback_only_for_its_shape (T : RecordUnion)
    (response : Renderable) (callback : Renderable -> outcome Renderable) :
  (shapeOf response = Some T ->
     applyCallbackForRecordUnion T response callback = callback response)
  /\ (forall T', shapeOf response = Some T' -> T' <> T ->
        applyCallbackForRecordUnion T response callback = Ok response)
  /\ (shapeOf response = None ->
        applyCallbackForRecordUnion T response callback
        = Err (Errorf "unsupported type %T for result"
                 [ArgS (typeNameOf response)])).
Proof.
  split; [|split].
  - destruct T, response; simpl; intros H; try discriminate; reflexivity.
  - intros T'. destruct T, response; simpl; intros H Hne;
      try discriminate; try reflexivity; injection H as <-; contradiction.
  - destruct response; simpl; intros H; try discriminate; reflexivity.
Qed.

(** X21. The after-request step of [Snapshot] changes no response. Its
    callback runs on a [RecordSet] only, and it unwraps the [results] key
    only of a value that is a plain map, which a [RecordSet] is not: a
    [Record], an [EmptyRecord] and a [RecordSet] all come back as they
    are. *)
Theorem Snapshot_afterRequest_changes_nothing
    (elements : string -> option (list (GoMap Value))) (response : Renderable) :
  (forall T, shapeOf response = Some T ->
     Snapshot_afterRequest elements response = Ok response)
  /\ (shapeOf response = None ->
        exists err, Snapshot_afterRequest elements response = Err err).
Proof.
  split.
  - intros T. destruct response; simpl; intros H; try discriminate; reflexivity.
  - destruct response; simpl; intros H; try discriminate; eauto.
Qed.

(** The loop of [toRecord] along entries with distinct keys. *)
Lemma toRecord_loop (order : list (string * Value)) (acc : gmap string Value) :
  NoDup order.*1 ->
  fold_left (fun converted kv => <[ kv.1 := kv.2 ]> converted) order acc
  = list_to_map order ∪ acc.
Proof.
  revert acc. induction order as [|[k v] rest IH]; intros acc Hnodup.
  - simpl. by rewrite (left_id_L ∅ (∪)).
  - apply NoDup_cons in Hnodup as [Hfresh Hnodup].
    apply (not_elem_of_list_to_map_1 (M := gmap string)) in Hfresh.
    cbn [fold_left fst snd]. rewrite IH by exact Hnodup.
    cbn [list_to_map foldr fst snd uncurry].
    by rewrite <- insert_union_r, insert_union_l.
Qed.

Lemma toRecordIn_copies (m : GoMap Value) (order : list (string * Value)) :
  order ≡ₚ map_to_list (entries m) ->
  toRecordIn order = inr (mkMap (entries m)).
Proof.
  intros Hperm. unfold toRecordIn. rewrite toRecord_loop.
  - rewrite (right_id_L ∅ (∪)).
    rewrite (list_to_map_proper order (map_to_list (entries m))).
    + by rewrite list_to_map_to_list.
    + rewrite Hperm. apply NoDup_fst_map_to_list.
    + exact Hperm.
  - rewrite Hperm. apply NoDup_fst_map_to_list.
Qed.

(** X22. [toRecord] makes an allocated [Record] with the entries of its
    argument, in whatever order the loop visits them; of a nil map it
    makes an empty record that can be written to. [toRecordSet] never
    fails: it returns as many records as it was given maps, in the same
    order, each with the entries of its map. *)
Theorem toRecordSet_copies (items : list (GoMap Value)) :
  (forall (m : GoMap Value) (order : list (string * Value)),
      order ≡ₚ map_to_list (entries m) ->
      toRecordIn order = inr (mkMap (entries m)))
  /\ toRecord nilMap = inr (mkMap ∅)
  /\ toRecordSet items = inr ((fun m => mkMap (entries m)) <$> items).
Proof.
  split; [exact toRecordIn_copies|]. split; [reflexivity|].
  induction items as [|m rest IH]; [reflexivity|].
  cbn [toRecordSet]. unfold toRecord.
  rewrite (toRecordIn_copies m) by reflexivity.
  by rewrite IH.
Qed.

Lemma stringLe_trans (a b c : string) :
  stringLe a b -> stringLe b c -> stringLe a c.
Proof.
  unfold stringLe, String.leb. revert b c.
  induction a as [|x a IH]; intros [|y b] [|z c]; simpl; try done.
  unfold Ascii.compare.
  destruct (N.compare_spec (N_of_ascii x) (N_of_ascii y)) as [Hxy|Hxy|Hxy];
    try done;
    destruct (N.compare_spec (N_of_ascii y) (N_of_ascii z)) as [Hyz|Hyz|Hyz];
    try done;
    destruct (N.compare_spec (N_of_ascii x) (N_of_ascii z)) as [Hxz|Hxz|Hxz];
    try done; try lia.
  apply IH.
Qed.

Lemma getPrintableAttrs_sorted (keys : list string) :
  StronglySorted stringLe (merge_sort stringLe keys).
Proof.
  apply StronglySorted_merge_sort.
  - exact stringLe_trans.
  - exact String.leb_total.
Qed.

(** X25. Whatever the order in which the loop meets the keys of the
    record, [getPrintableAttrs] returns the same list: the keys of the
    record that are printable attributes, each once, in ascending byte
    order. *)
Theorem getPrintableAttrs_is_sorted_and_stable (r : Record)
    (order : list (string * Value)) :
  order ≡ₚ map_to_list (entries r) ->
  getPrintableAttrsIn order = getPrintableAttrs r
  /\ StronglySorted stringLe (getPrintableAttrsIn order)
  /\ NoDup (getPrintableAttrsIn order)
  /\ forall key, key ∈ getPrintableAttrsIn order
                 <-> key ∈ printableAttrs /\ is_Some (mapGet r key).
Proof.
  intros Hperm. unfold getPrintableAttrs, getPrintableAttrsIn.
  assert (merge_sort stringLe (filter (fun key => key ∈ printableAttrs) order.*1)
          ≡ₚ filter (fun key => key ∈ printableAttrs) (map_to_list (entries r)).*1)
    as Hsorted.
  { rewrite merge_sort_Permutation. by rewrite Hperm. }
  split; [|split; [|split]].
  - apply (@StronglySorted_unique _ stringLe String.leb_antisym).
    + apply getPrintableAttrs_sorted.
    + apply getPrintableAttrs_sorted.
    + rewrite Hsorted. by rewrite merge_sort_Permutation.
  - apply getPrintableAttrs_sorted.
  - rewrite Hsorted. apply NoDup_filter, NoDup_fst_map_to_list.
  - intros key. rewrite Hsorted, list_elem_of_filter, list_elem_of_fmap.
    unfold mapGet. split.
    + intros [Hp [[k v] [-> Hin]]]. split; [exact Hp|].
      apply elem_of_map_to_list in Hin. by exists v.
    + intros [Hp [v Hv]]. split; [exact Hp|].
      exists (key, v). split; [reflexivity|]. by apply elem_of_map_to_list.
Qed.

End UtilsProps.

(** ** The dispatcher from end to end *)

Section DispatcherEnds.
Context `{RT : GoRuntime} `{VL : GoVersion}.
Import GoStrings.
Local Open Scope list_scope.


(** X24. A call for a [Record] whose response decodes to an allocated
    record hands that record, tagged with the resource type, to the
    after-request interceptor. A response that decodes to the nil
    record, as the JSON text [null] does, makes the call panic when the
    tag is written: the interceptor is not reached. *)
Theorem request_for_a_record (r : InterceptableVastResource)
    (verb path apiVer : string) (params body : Params) (w w1 : World)
    (response : Response) :
  requestSent r verb path apiVer params body w = (Ok response, w1) ->
  (forall g : gmap string Value,
      jsonUnmarshalRecord (Body response) = inr (mkMap g) ->
      request TRecord r verb path apiVer params body w
      = (doAfterRequest r (RRecord (mkMap (tagged (GetResourceType r) g)))
         ≫= (fun v => liftO (assertT TRecord v))) w1)
  /\ (jsonUnmarshalRecord (Body response) = inr nilMap ->
        request TRecord r verb path apiVer params body w
        = (Panic panic_nil_map, w1)).
Proof.
  intros Hsent. split.
  - intros g Hdecode. unfold request.
    assert (requestDecoded TRecord r verb path apiVer params body w
            = (Ok (mkMap (tagged (GetResourceType r) g)), w1)) as Hdecoded.
    { rewrite requestDecoded_steps, (bind_Ok _ _ _ _ _ Hsent).
      unfold decodeAndTag. simpl. rewrite Hdecode.
      unfold_monad. simpl. by rewrite stamp_allocated. }
    by rewrite (bind_Ok _ _ _ _ _ Hdecoded).
  - intros Hdecode. unfold request. apply bind_Panic.
    rewrite requestDecoded_steps, (bind_Ok _ _ _ _ _ Hsent).
    unfold decodeAndTag. simpl. rewrite Hdecode. reflexivity.
Qed.

(** X28. Parameters without an entry are no parameters: the query of a
    nil and of an empty [Params] is the empty string, and a call with
    empty parameters is the call with nil parameters, so its URL has no
    question mark. The query of one parameter is its escaped key, an
    equals sign and its escaped printed value. *)
Theorem request_with_no_parameters (T : RecordUnion)
    (r : InterceptableVastResource) (verb path apiVer : string)
    (body : Params) (w : World) :
  ToQuery nilMap = "" /\ ToQuery (mkMap ∅) = ""
  /\ request T r verb path apiVer (mkMap ∅) body w
     = request T r verb path apiVer nilMap body w
  /\ forall (k : string) (v : Value),
       ToQuery (mkMap {[ k := v ]})
       = (GoURL.escape k GoURL.encodeQueryComponent ++ "="
          ++ GoURL.escape (fmtSprint v) GoURL.encodeQueryComponent)%string.
Proof.
  split; [reflexivity|]. split; [reflexivity|]. split; [reflexivity|].
  intros k v. unfold ToQuery, convertMapToQuery, GoURL.Encode. simpl entries.
  by rewrite map_fmap_singleton, map_to_list_singleton.
Qed.

End DispatcherEnds.

(** * Further properties at work *)

Section MoreExamples.
Import Sample Fixtures.
Local Open Scope list_scope.

Local Abbreviation home := (booted (appliance versionsBody)).
Local Abbreviation quotas :=
  (asResource configBeforeRequest configAfterRequest sampleRest Quotas).
Local Abbreviation tasks :=
  (asResource configBeforeRequest configAfterRequest sampleRest VTasks).
Local Abbreviation views :=
  (asResource configBeforeRequest configAfterRequest sampleRest Views).

Lemma request_stops_at_before_hook_witness :
  request TRecordSet refusing "get" "views" "" nilMap nilMap home
  = (Err (ForeignError "not now"), home).
Proof.
  apply (request_stops_at_before_hook TRecordSet refusing "get" "views" ""
           nilMap nilMap home home (Some "") None
           "https://10.27.40.1:443/api/views").
  - apply list_elem_of_here.
  - reflexivity.
  - vm_compute; reflexivity.
  - reflexivity.
Defined.

Lemma empty_record_ignores_body_witness :
  requestDecoded TEmptyRecord quotas "DELETE" "quotas/7" "" nilMap nilMap home
  = (Ok nilMap, (requestSent quotas "DELETE" "quotas/7" "" nilMap nilMap home).2).
Proof.
  assert (requestSent quotas "DELETE" "quotas/7" "" nilMap nilMap home
          = (Ok {| StatusCode := 204; Body := "" |},
             (requestSent quotas "DELETE" "quotas/7" "" nilMap nilMap home).2))
    as Hsent by (vm_compute; reflexivity).
  exact (empty_record_ignores_body quotas "DELETE" "quotas/7" "" nilMap nilMap
           home _ _ Hsent).
Defined.

Lemma request_decode_failure_witness :
  let w1 := (requestSent quotas "GET" "quotas/7" "" nilMap nilMap home).2 in
  let err := ForeignError "json: cannot unmarshal" in
  request TRecord quotas "GET" "quotas/7" "" nilMap nilMap home
  = (Err err, set_stdout (stdout w1 ++ [err]) w1).
Proof.
  intros w1 err.
  assert (requestSent quotas "GET" "quotas/7" "" nilMap nilMap home
          = (Ok {| StatusCode := 204; Body := "" |}, w1))
    as Hsent by (vm_compute; reflexivity).
  apply (request_decode_failure TRecord quotas "GET" "quotas/7" "" nilMap nilMap
           home w1 _ err Hsent).
  reflexivity.
Defined.

Lemma Authorize_leaves_a_fresh_token_witness :
  let w' := (Authorize sampleConfig home).2 in
  exists t, Token (jwt w') = Some t /\ now w' - CreatedAt t < TokenRefreshTime.
Proof.
  intros w'.
  assert (Authorize sampleConfig home = (Ok tt, w')) as HA
    by (vm_compute; reflexivity).
  exact (proj2 (Authorize_leaves_a_fresh_token sampleConfig home w' (Ok tt) HA)
           eq_refl).
Defined.

Lemma failed_refresh_keeps_the_token_witness :
  let w' := (Authorize sampleConfig staleWorld).2 in
  jwt w' = jwt staleWorld
  /\ wire w' = wire staleWorld ++ [refreshRequest sampleConfig staleToken]
  /\ exists r w'',
       Authorize sampleConfig w' = (r, w'')
       /\ wire w'' = wire w' ++ [refreshRequest sampleConfig staleToken].
Proof.
  intros w'.
  assert (Authorize sampleConfig staleWorld
          = (Err (Errorf "invalid status code %d, err: %s" [ArgD 401; ArgS ""]), w'))
    as HA by (vm_compute; reflexivity).
  assert (TokenRefreshTime <= now staleWorld - CreatedAt staleToken) as Hstale
    by (vm_compute; discriminate).
  assert (now staleWorld <= now w') as Hnow by (vm_compute; discriminate).
  exact (failed_refresh_keeps_the_token sampleConfig staleWorld w' staleToken _
           eq_refl eq_refl Hstale HA Hnow).
Defined.


Lemma api_token_session_sends_one_request_witness :
  let url := "https://10.27.40.1:443/api/views" in
  let w := world0 (appliance versionsBody) in
  let w' := (doRequest tokenSession "GET" url None w).2 in
  wire w' = wire w ++ [outgoing tokenSession "GET" url None "Api-Token s3cr3t"]
  /\ jwt w' = jwt w
  /\ ApiRToken (apiToken w') = "s3cr3t".
Proof.
  intros url w w'.
  apply (api_token_session_sends_one_request tokenSession "GET" url None w).
  - reflexivity.
  - reflexivity.
Defined.

Lemma doRequest_stops_without_a_token_witness :
  let url := "https://10.27.40.1:443/api/views" in
  let w := booted lockedOut in
  let w' := (Authorize sampleConfig w).2 in
  let e := Errorf "invalid status code %d, err: %s" [ArgD 401; ArgS ""] in
  doRequest jwtSession "GET" url None w = (Err e, w')
  /\ (wire w' = wire w ++ [acquireRequest sampleConfig]
      \/ exists t, Token (jwt w) = Some t
                   /\ wire w' = wire w ++ [refreshRequest sampleConfig t]).
Proof.
  intros url w w' e.
  assert (Authorize sampleConfig w = (Err e, w')) as HA
    by (vm_compute; reflexivity).
  apply (doRequest_stops_without_a_token jwtSession "GET" url None w w' e).
  - reflexivity.
  - reflexivity.
  - exact HA.
Defined.

Local Abbreviation hooked := (bootedWith hookedConfig (appliance versionsBody)).
Local Abbreviation hGet := (Get configBeforeRequest configAfterRequest hookedRest).
Local Abbreviation hCreate := (Create configBeforeRequest configAfterRequest hookedRest).
Local Abbreviation hEnsure := (Ensure configBeforeRequest configAfterRequest hookedRest).
Local Abbreviation sGet := (Get configBeforeRequest configAfterRequest sampleRest).
Local Abbreviation sEnsure := (Ensure configBeforeRequest configAfterRequest sampleRest).
Local Abbreviation sGetVersion :=
  (GetVersion configBeforeRequest configAfterRequest sampleRest).



Lemma Ensure_creates_what_is_missing_witness :
  let byName : Params := mkMap {[ "name" := VString "v" ]} in
  let w' := (hGet Views byName hooked).2 in
  (forall b : gmap string Value,
      exists b' : gmap string Value,
        hEnsure Views "v" (mkMap b) hooked = hCreate Views (mkMap b') w'
        /\ b' !! "name" = Some (VString "v")
        /\ forall k, k <> "name" -> b' !! k = b !! k)
  /\ hEnsure Views "v" nilMap hooked = (Panic panic_nil_map, w').
Proof.
  intros byName w'.
  assert (hGet Views byName hooked = (Err (NotFoundError "views" "name=v"), w'))
    as HG by (vm_compute; reflexivity).
  exact (Ensure_creates_what_is_missing configBeforeRequest configAfterRequest
           hookedRest Views "v" hooked w' _ HG eq_refl).
Defined.

Lemma WaitTask_returns_only_completed_tasks_witness :
  let w' := (WaitTask configBeforeRequest allDone sampleRest VTasks 7 home).2 in
  GoStrings.ToLower (fmtSprint (index completedTask "state")) = "completed"
  /\ (exists n, toInt (index completedTask "id") = Ok n)
  /\ exists w0,
       GetById configBeforeRequest allDone sampleRest VTasks 7 w0
       = (Ok completedTask, w').
Proof.
  intros w'.
  assert (WaitTask configBeforeRequest allDone sampleRest VTasks 7 home
          = (Ok completedTask, w')) as HW by (vm_compute; reflexivity).
  exact (WaitTask_returns_only_completed_tasks configBeforeRequest allDone
           sampleRest VTasks 7 home w' completedTask HW).
Defined.

Lemma GetVersion_is_memoized_for_all_clients_witness :
  let w' := (sGetVersion home).2 in
  GetVersion configBeforeRequest configAfterRequest hookedRest w' = (Ok [5; 2; 0], w')
  /\ forall e minimum,
       availableFromVersion e = Some minimum ->
       checkVastResourceVersionCompat configBeforeRequest configAfterRequest
         hookedRest e w'
       = (if Compare [5; 2; 0] minimum =? -1
          then Err (versionIncompatible e [5; 2; 0] minimum) else Ok tt, w').
Proof.
  intros w'.
  assert (sGetVersion home = (Ok [5; 2; 0], w')) as HG
    by (vm_compute; reflexivity).
  exact (GetVersion_is_memoized_for_all_clients configBeforeRequest
           configAfterRequest sampleRest hookedRest home w' [5; 2; 0] HG).
Defined.

Lemma GetVersion_reads_the_first_record_witness :
  sGetVersion home
  = (Ok [5; 2; 0],
     set_sysVersion (Some [5; 2; 0])
       (listRequest configBeforeRequest configAfterRequest sampleRest Versions
          (mkMap {[ "status" := VString "success" ]}) home).2).
Proof.
  set (w' := (listRequest configBeforeRequest configAfterRequest sampleRest
                Versions (mkMap {[ "status" := VString "success" ]}) home).2).
  set (first := mkMap (<[ resourceTypeKey := VString "Version" ]>
                       {[ "sys_version" := VString "5.2.0.11" ]}) : Record).
  assert (listRequest configBeforeRequest configAfterRequest sampleRest Versions
            (mkMap {[ "status" := VString "success" ]}) home
          = (Ok [first], w')) as Hlist by (vm_compute; reflexivity).
  assert (index first "sys_version" = VString "5.2.0.11") as Hfirst
    by (vm_compute; reflexivity).
  exact (proj1 (GetVersion_reads_the_first_record configBeforeRequest
                  configAfterRequest sampleRest home w' first [] "5.2.0.11"
                  "5" "2" "0" ["11"] eq_refl Hlist Hfirst eq_refl)
           [5; 2; 0] eq_refl).
Defined.

Lemma sanitizeVersion_keeps_three_segments_witness :
  GoStrings.Split "5.2.0" "." = take 3 (GoStrings.Split "5.2.0.11" ".")
  /\ length (GoStrings.Split "5.2.0" ".") = 3%nat
  /\ (true = true <-> (3 < length (GoStrings.Split "5.2.0.11" "."))%nat)
  /\ (true = false -> "5.2.0" = "5.2.0.11")
  /\ sanitizeVersion "5.2.0" = Ok ("5.2.0", false).
Proof.
  apply (sanitizeVersion_keeps_three_segments "5.2.0.11" "5.2.0" true).
  reflexivity.
Defined.

Lemma toInt_is_exact_on_whole_numbers_witness :
  toInt (VFloat64 f7) = Ok 7 /\ hasFraction f7 = false.
Proof.
  apply (toInt_is_exact_on_whole_numbers false 7881299347898368 (-50) 7).
  - reflexivity.
  - unfold int64_min, int64_max. lia.
Defined.


Lemma request_for_a_record_witness :
  let w1 := (requestSent tasks "GET" "vtasks/7" "" nilMap nilMap home).2 in
  request TRecord tasks "GET" "vtasks/7" "" nilMap nilMap home
  = (doAfterRequest tasks
       (RRecord (mkMap (tagged (GetResourceType tasks) (entries failedTask))))
     ≫= (fun v => liftO (assertT TRecord v))) w1.
Proof.
  intros w1.
  assert (requestSent tasks "GET" "vtasks/7" "" nilMap nilMap home
          = (Ok {| StatusCode := 200; Body := failedTaskBody |}, w1)) as Hsent
    by (vm_compute; reflexivity).
  apply (proj1 (request_for_a_record tasks "GET" "vtasks/7" "" nilMap nilMap
                  home w1 _ Hsent)).
  vm_compute; reflexivity.
Defined.

Lemma getPrintableAttrs_is_sorted_and_stable_witness :
  getPrintableAttrsIn (reverse (map_to_list (entries failedTask)))
  = ["id"; "name"; "state"].
Proof.
  destruct (getPrintableAttrs_is_sorted_and_stable failedTask
              (reverse (map_to_list (entries failedTask)))) as [Hsame _].
  - apply reverse_Permutation.
  - rewrite Hsame. vm_compute. reflexivity.
Defined.

Lemma EnsureBlockHost_body_witness :
  let params : Params :=
    mkMap (<[ "name" := VString "h1" ]> (<[ "tenant_id" := VInt 1 ]> ∅)) in
  let w := booted emptyHanded in
  EnsureBlockHost configBeforeRequest configAfterRequest sampleRest Views
    "h1" 1 "nqn.2014-08.org.nvmexpress:h1" w
  = Create configBeforeRequest configAfterRequest sampleRest Views
      (mkMap (<[ "name" := VString "h1" ]>
              (<[ "tenant_id" := VInt 1 ]>
               (<[ "nqn" := VString "nqn.2014-08.org.nvmexpress:h1" ]>
                (<[ "os_type" := VString "LINUX" ]>
                 (<[ "connectivity_type" := VString "tcp" ]> ∅))))))
      (sGet Views params w).2.
Proof.
  intros params w.
  assert (sGet Views params w
          = (Err (NotFoundError "views" "name=h1&tenant_id=1"), (sGet Views params w).2))
    as HG by (vm_compute; reflexivity).
  exact (proj1 (proj2 (EnsureBlockHost_body configBeforeRequest configAfterRequest
                         sampleRest Views "h1" 1 "nqn.2014-08.org.nvmexpress:h1" w))
           _ _ HG eq_refl).
Defined.

Lemma GetVersion_panics_on_unexpected_lists_witness :
  let w := booted (appliance "[]") in
  sGetVersion w
  = (Panic panic_index,
     (listRequest configBeforeRequest configAfterRequest sampleRest Versions
        (mkMap {[ "status" := VString "success" ]}) w).2).
Proof.
  intros w.
  assert (listRequest configBeforeRequest configAfterRequest sampleRest Versions
            (mkMap {[ "status" := VString "success" ]}) w
          = (Ok [],
             (listRequest configBeforeRequest configAfterRequest sampleRest Versions
                (mkMap {[ "status" := VString "success" ]}) w).2)) as Hlist
    by (vm_compute; reflexivity).
  exact (proj1 (GetVersion_panics_on_unexpected_lists configBeforeRequest
                  configAfterRequest sampleRest w _ [] eq_refl Hlist) eq_refl).
Defined.

Lemma session_is_unusable_after_a_failed_login_witness :
  let w := booted lockedOut in
  let w' := (Authorize sampleConfig w).2 in
  doRequest jwtSession "GET" "https://10.27.40.1:443/api/views" None w'
  = (Panic panic_nil_deref, w').
Proof.
  intros w w'.
  assert (Authorize sampleConfig w
          = (Err (Errorf "invalid status code %d, err: %s" [ArgD 401; ArgS ""]), w'))
    as HA by (vm_compute; reflexivity).
  exact (session_is_unusable_after_a_failed_login jwtSession "GET"
           "https://10.27.40.1:443/api/views" None w w' _
           eq_refl eq_refl eq_refl HA eq_refl).
Defined.

End MoreExamples.
